(** * bip.hexrays.cnode: the [CNode] hierarchy and its class generation

    A shallow embedding of [src/bip/hexrays/cnode.py].  Python objects are
    records, class objects live in a heap indexed by their identity, the
    module globals [_citem2cnode] and [_cnodeMethods] are finite maps, and a
    call that may raise returns a [pyresult]. *)

From Stdlib Require Import ZArith Lia Ascii.
From stdpp Require Import base option list gmap strings.

Set Warnings "-register-all,-clear-no-such-hyp,-notation-for-abbreviation".
Open Scope string_scope.
Open Scope list_scope.
Open Scope Z_scope.

(** ** Python results *)

Inductive pyexn :=
  | ValueError
  | RuntimeError
  | AssertionError
  | AttributeError
  | KeyError.

(** What a call does: it returns, it raises, or (for a loop run on fuel)
    the fuel ran out before the loop ended. *)
Inductive pyresult (A : Type) :=
  | Return (a : A)
  | Raise (e : pyexn)
  | OutOfFuel.
Arguments Return {A} a.
Arguments Raise {A} e.
Arguments OutOfFuel {A}.

#[global] Instance pyresult_ret : MRet pyresult := fun A a => Return a.
#[global] Instance pyresult_bind : MBind pyresult := fun A B k r =>
  match r with
  | Return a => k a
  | Raise e => Raise e
  | OutOfFuel => OutOfFuel
  end.
#[global] Instance pyresult_fmap : FMap pyresult := fun A B f r =>
  match r with
  | Return a => Return (f a)
  | Raise e => Raise e
  | OutOfFuel => OutOfFuel
  end.

Definition raises {A} (r : pyresult A) : Prop := exists e, r = Raise e.

(** ** Host data

    A [citem_t] of the host carries its discriminant [op], its address [ea]
    and its operand items; [x] is the first operand (the one a cast wraps). *)

Inductive citem_t :=
  | Citem (op : Z) (ea : Z) (operands : list citem_t).

Definition op (c : citem_t) : Z := let 'Citem o _ _ := c in o.
Definition ea (c : citem_t) : Z := let 'Citem _ a _ := c in a.
Definition operands (c : citem_t) : list citem_t := let 'Citem _ _ l := c in l.
Definition x (c : citem_t) : option citem_t := head (operands c).

(** The wrapper of the function a node belongs to, known by its address. *)
Record HxCFunc := { func_ea : Z }.

(** Identity of a class object. *)
Definition cref := positive.

(** ** [CNode] objects

    [__init__] stores the item (through [AbstractCItem.__init__]), the
    function and the parent; [n_class] is the class the object was
    instantiated from. *)

Inductive CNode :=
  | mkCNode (n_class : cref) (_citem : citem_t) (_hxcfunc : HxCFunc)
            (_parent : option CNode).

Definition n_class (n : CNode) : cref := let 'mkCNode c _ _ _ := n in c.
Definition _citem (n : CNode) : citem_t := let 'mkCNode _ c _ _ := n in c.
Definition _hxcfunc (n : CNode) : HxCFunc := let 'mkCNode _ _ f _ := n in f.
Definition _parent (n : CNode) : option CNode := let 'mkCNode _ _ _ p := n in p.

(** [cl(citem, hxcfunc, parent)]: a new object of class [cl] on which
    [CNode.__init__] ran.  [CNodeExpr.__init__] and [CNodeStmt.__init__]
    bind the same item once more, as [_cexpr] and [_cinsn]; the
    attributes themselves are modelled in [Obj]. *)
Definition CNode___init__ (cl : cref) (citem : citem_t) (hxcfunc : HxCFunc)
    (parent : option CNode) : CNode :=
  mkCNode cl citem hxcfunc parent.

(** [AbstractCItem.ea]: the address of the proxied item. *)
Definition node_ea (self : CNode) : Z := ea (_citem self).

Definition has_parent (self : CNode) : bool :=
  match _parent self with
  | None => false
  | Some _ => true
  end.

Section Parent.

(** [str(self)]: the [__str__] the class of [self] resolves to.  It can
    raise: [CNodeExpr.__str__] and [CNodeStmt.__str__] read [self.ops]
    and [self.st_childs]. *)
Variable __str__ : CNode -> pyresult string.

(** The message ["CNode {} as not parent".format(self)] is built before
    the [RuntimeError] is raised. *)
Definition parent (self : CNode) : pyresult CNode :=
  match _parent self with
  | None =>
    msg ← __str__ self;
    Raise RuntimeError
  | Some p => Return p
  end.

End Parent.

Section Str.

(** [cl.__name__]. *)
Variable __name__ : cref -> string.

(** [self.ops] and [self.st_childs], the properties the class of [self]
    resolves to: [CNodeExpr.ops] and [CNodeStmt.st_childs] return the
    empty list, the generated subclasses the nodes of their child items. *)
Variable ops : CNode -> pyresult (list CNode).
Variable st_childs : CNode -> pyresult (list CNode).

(** [fmt.format(name, ea, childs)], the text of a node. *)
Variable str_format : string -> string -> Z -> list CNode -> pyresult string.

Definition CNodeExpr___str__ (self : CNode) : pyresult string :=
  childs ← ops self;
  str_format "{}(ea=0x{:X}, ops={})" (__name__ (n_class self))
    (node_ea self) childs.

Definition CNodeStmt___str__ (self : CNode) : pyresult string :=
  childs ← st_childs self;
  str_format "{}(ea=0x{:X}, st_childs={})" (__name__ (n_class self))
    (node_ea self) childs.

End Str.

Definition cfunc (self : CNode) : HxCFunc := _hxcfunc self.

Section ClosestEa.

(** [idc.BADADDR], a constant of the host. *)
Variable BADADDR : Z.

(** One turn of [while ea == idc.BADADDR and obj is not None] with
    [obj] bound to the node [o]. *)
Fixpoint closest_ea_while (o : CNode) (ea : Z) : Z :=
  if ea =? BADADDR then
    let ea' := node_ea o in
    match _parent o with
    | Some o' => closest_ea_while o' ea'
    | None => ea'
    end
  else ea.

Definition closest_ea (self : CNode) : pyresult (option Z) :=
  let ea := node_ea self in
  let ea :=
    match _parent self with
    | Some obj => closest_ea_while obj ea
    | None => ea
    end in
  if ea =? BADADDR then Return None else Return (Some ea).

(** The node itself followed by its ancestors up to the root. *)
Fixpoint parent_chain (n : CNode) : list CNode :=
  n :: match _parent n with
       | Some p => parent_chain p
       | None => []
       end.

(** The first address of a chain of nodes that is not [BADADDR]. *)
Definition first_address (l : list CNode) : option Z :=
  head (filter (fun a => a <> BADADDR) (node_ea <$> l)).

End ClosestEa.

(** ** Class objects *)

(** The Python values that occur as class attributes and globals. *)
Inductive pyval :=
  | PStr (s : string)
  | PFunc (__name__ : string) (code : positive)
  | PProperty (fget : option (string * positive))
  | PClass (c : cref)
  | PNone.

Record pyclass := {
  c_name : string;
  c_bases : list cref;
  c_dict : gmap string pyval;
}.

(** [c.__subclasses__()]: the classes that list [c] among their bases. *)
Definition __subclasses__ (classes : gmap cref pyclass) (c : cref) : list cref :=
  (filter (fun kv => c ∈ c_bases kv.2) (map_to_list classes)).*1.

(** The classes below [root]: its subclasses, their subclasses, and so on. *)
Inductive subclass_of (classes : gmap cref pyclass) (root : cref) : cref -> Prop :=
  | subclass_direct c :
      c ∈ __subclasses__ classes root -> subclass_of classes root c
  | subclass_below c c' :
      subclass_of classes root c -> c' ∈ __subclasses__ classes c ->
      subclass_of classes root c'.

(** [s.pop()] removes and returns an arbitrary element of the set; [choice]
    says which one. *)
Definition set_pop (choice : nat) (s : gset cref) : option (cref * gset cref) :=
  let l := elements s in
  match l !! (choice mod length l)%nat with
  | Some c => Some (c, s ∖ {[c]})
  | None => None
  end.

Section GetCNode.

(** The class objects of the process and the class object [CNode]. *)
Variable classes : gmap cref pyclass.
Variable CNode_cls : cref.

(** [cl.is_handling_type(op)], a class method of [AbstractCItem]. *)
Variable is_handling_type : cref -> Z -> bool.

(** Which element [todo.pop()] returns, given the sets [done] and
    [todo] of the loop. *)
Variable pop_choice : gset cref -> gset cref -> nat.

Fixpoint GetCNode_while (fuel : nat) (citem : citem_t) (hxcfunc : HxCFunc)
    (parent : option CNode) (done todo : gset cref) : pyresult CNode :=
  match fuel with
  | O => OutOfFuel
  | S fuel =>
    if decide (size todo ≠ 0%nat) then
      match set_pop (pop_choice done todo) todo with
      | None => Raise KeyError
      | Some (cl, todo) =>
        if decide (cl ∈ done) then
          GetCNode_while fuel citem hxcfunc parent done todo
        else if is_handling_type cl (op citem) then
          Return (CNode___init__ cl citem hxcfunc parent)
        else
          let done := done ∪ {[cl]} in
          let todo := todo ∪ list_to_set (__subclasses__ classes cl) in
          GetCNode_while fuel citem hxcfunc parent done todo
      end
    else Raise ValueError
  end.

(** Enough turns for the loop on any hierarchy of [classes]. *)
Definition GetCNode_fuel : nat :=
  (S (size classes) * S (size classes))%nat.

Definition GetCNode (citem : citem_t) (hxcfunc : HxCFunc)
    (parent : option CNode) : pyresult CNode :=
  let done : gset cref := ∅ in
  let todo : gset cref := list_to_set (__subclasses__ classes CNode_cls) in
  GetCNode_while GetCNode_fuel citem hxcfunc parent done todo.

(** [self._createChild(citem)]; reading [citem.op] of [None] fails. *)
Definition _createChild (self : CNode) (citem : option citem_t) : pyresult CNode :=
  match citem with
  | None => Raise AttributeError
  | Some c => GetCNode c (_hxcfunc self) (Some self)
  end.

(** [self.operand] of a unary expression: the node of [self._cexpr.x],
    made by [_createChild]. *)
Definition operand (self : CNode) : pyresult CNode :=
  _createChild self (x (_citem self)).

(** Whether the class resolves [ignore_cast] to the getter registered
    for [CNodeExprCast] (the object is a cast) or to [CNode.ignore_cast]. *)
Variable is_cast : cref -> bool.

(** [self.ignore_cast] for the object [cl(c, f, p)], by recursion on the
    host item; the child of a cast is looked at through its own item. *)
Fixpoint ignore_cast_of (cl : cref) (c : citem_t) (f : HxCFunc)
    (p : option CNode) {struct c} : pyresult CNode :=
  let self := mkCNode cl c f p in
  if is_cast cl then
    match c with
    | Citem _ _ [] => Raise AttributeError
    | Citem _ _ (cx :: _) =>
      child ← GetCNode cx f (Some self);
      ignore_cast_of (n_class child) cx (_hxcfunc child) (_parent child)
    end
  else Return self.

Definition ignore_cast (self : CNode) : pyresult CNode :=
  ignore_cast_of (n_class self) (_citem self) (_hxcfunc self) (_parent self).

Definition is_cast_node (n : CNode) : bool := is_cast (n_class n).

End GetCNode.

Section GetCNodeSpec.

Variable classes : gmap cref pyclass.
Variable CNode_cls : cref.
Variable is_handling_type : cref -> Z -> bool.

(** What the loop of [GetCNode] holds between two turns: [done] and
    [todo] are classes below [CNode], no class of [done] handles the
    type [o], and the subclasses of [CNode] and of every class of
    [done] are in one of the two sets. *)
Record GetCNode_inv (o : Z) (done todo : gset cref) : Prop := {
  inv_below : forall c, c ∈ done ∪ todo -> subclass_of classes CNode_cls c;
  inv_done : forall c, c ∈ done -> is_handling_type c o = false;
  inv_root : forall c, c ∈ __subclasses__ classes CNode_cls -> c ∈ done ∪ todo;
  inv_closed : forall d c,
    d ∈ done -> c ∈ __subclasses__ classes d -> c ∈ done ∪ todo;
}.

(** What the loop ends with. *)
Definition GetCNode_post (citem : citem_t) (hxcfunc : HxCFunc)
    (parent : option CNode) (r : pyresult CNode) : Prop :=
  (r = Raise ValueError /\
   forall c, subclass_of classes CNode_cls c ->
             is_handling_type c (op citem) = false) \/
  (exists cl, subclass_of classes CNode_cls cl /\
     is_handling_type cl (op citem) = true /\
     r = Return (CNode___init__ cl citem hxcfunc parent)).

End GetCNodeSpec.

(** ** Visitors *)

Section Visitor.

Variable classes : gmap cref pyclass.
Variable CNode_cls : cref.
Variable is_handling_type : cref -> Z -> bool.
Variable pop_choice : gset cref -> gset cref -> nat.

(** Modelled from the spec: [cnode_visitor.visit_dfs_cnode] is not under
    src/.  It calls [callback] on the node itself and on all nodes below
    it, depth first; the nodes below are the nodes of the operand items,
    made with the visited node as parent.  The callback acts on a state
    [S] (what its closure mutates). *)
Fixpoint visit_dfs_cnode {S : Type} (callback : CNode -> S -> S)
    (cl : cref) (c : citem_t) (f : HxCFunc) (p : option CNode) (st : S)
    {struct c} : pyresult S :=
  let elt := mkCNode cl c f p in
  let st := callback elt st in
  match c with
  | Citem _ _ childs =>
    (fix visit_childs (l : list citem_t) (st : S) : pyresult S :=
       match l with
       | [] => Return st
       | k :: l =>
         child ← GetCNode classes CNode_cls is_handling_type pop_choice
                   k f (Some elt);
         st ← visit_dfs_cnode callback (n_class child) k (_hxcfunc child)
                (_parent child) st;
         visit_childs l st
       end) childs st
  end.

Definition visit_cnode {S : Type} (self : CNode) (callback : CNode -> S -> S)
    (st : S) : pyresult S :=
  visit_dfs_cnode callback (n_class self) (_citem self) (_hxcfunc self)
    (_parent self) st.

(** The closure [_app_filt] of [get_cnode_filter], acting on the list [l]. *)
Definition _app_filt (cb_filter : CNode -> bool) (cn : CNode)
    (l : list CNode) : list CNode :=
  if cb_filter cn then l ++ [cn] else l.

Definition get_cnode_filter (self : CNode) (cb_filter : CNode -> bool)
    : pyresult (list CNode) :=
  let l := [] in
  visit_cnode self (_app_filt cb_filter) l.

(** The node [cl(c, f, p)] followed by the nodes below it, operand after
    operand, each with all that is below it. *)
Fixpoint dfs_nodes (cl : cref) (c : citem_t) (f : HxCFunc)
    (p : option CNode) {struct c} : pyresult (list CNode) :=
  let elt := mkCNode cl c f p in
  match c with
  | Citem _ _ childs =>
    below ←
      (fix nodes_childs (l : list citem_t) : pyresult (list CNode) :=
         match l with
         | [] => Return []
         | k :: l =>
           child ← GetCNode classes CNode_cls is_handling_type pop_choice
                     k f (Some elt);
           l1 ← dfs_nodes (n_class child) k (_hxcfunc child) (_parent child);
           l2 ← nodes_childs l;
           Return (l1 ++ l2)
         end) childs;
    Return (elt :: below)
  end.

(** The nodes [visit_cnode] calls its callback on, in the order of the
    calls: what a callback that records every node ends with. *)
Definition visited (self : CNode) : pyresult (list CNode) :=
  visit_cnode self (fun cn l => l ++ [cn]) [].

End Visitor.

(** ** Class generation *)

(** [s.replace(old, new)] for a non-empty [old]: occurrences are replaced
    from the left and do not overlap; [skip] counts the characters of a
    replaced occurrence still to drop. *)
Fixpoint str_replace_from (old new s : string) (skip : nat) : string :=
  match s with
  | EmptyString => EmptyString
  | String ch s' =>
    match skip with
    | S k => str_replace_from old new s' k
    | O =>
      if String.prefix old s
      then new +:+ str_replace_from old new s' (String.length old - 1)
      else String ch (str_replace_from old new s' 0)
    end
  end.

Definition str_replace (old new s : string) : string :=
  str_replace_from old new s 0.

(** The globals of the module [cnode]: the class objects reachable from it,
    the two dictionaries, and the other names. *)
Record module_state := {
  classes : gmap cref pyclass;
  _citem2cnode : gmap cref cref;
  _cnodeMethods : gmap string (list (string * pyval));
  globals : gmap string pyval;
}.

(** [__name__] in the module [cnode]. *)
Definition module_name : string := "bip.hexrays.cnode".

Definition newline : string := String (Ascii.ascii_of_nat 10) EmptyString.

Definition cnode_doc (cls_name : string) : string :=
  "Copy of :class:`" +:+ cls_name +:+
  "` but which inherit from :class:`CNode`." +:+ newline +:+
  "Automatically created by :func:`~bip.hexrays.cnode.buildCNode`".

(** [addCNodeMethod(cnode_name, func_name)]: the part run before the
    decorator it returns. *)
Definition addCNodeMethod (cnode_name : string) (st : module_state) : module_state :=
  match _cnodeMethods st !! cnode_name with
  | Some _ => st
  | None =>
    {| classes := classes st;
       _citem2cnode := _citem2cnode st;
       _cnodeMethods := <[cnode_name := []]> (_cnodeMethods st);
       globals := globals st |}
  end.

(** The name [_internal_addcnodemeth] selects for [func]. *)
Definition select_name (func_name : option string) (func : pyval) : pyresult string :=
  match func_name with
  | Some fn => Return fn
  | None =>
    match func with
    | PProperty (Some (nm, _)) => Return nm
    | PProperty None => Raise AttributeError
    | PFunc nm _ => Return nm
    | _ => Raise AttributeError
    end
  end.

(** The decorator returned by [addCNodeMethod(cnode_name, func_name)],
    applied to [func]; it returns [func]. *)
Definition _internal_addcnodemeth (cnode_name : string)
    (func_name : option string) (func : pyval) (st : module_state)
    : pyresult (pyval * module_state) :=
  fn ← select_name func_name func;
  match _cnodeMethods st !! cnode_name with
  | None => Raise KeyError
  | Some l =>
    Return (func,
      {| classes := classes st;
         _citem2cnode := _citem2cnode st;
         _cnodeMethods := <[cnode_name := l ++ [(fn, func)]]> (_cnodeMethods st);
         globals := globals st |})
  end.

(** [@addCNodeMethod(cnode_name, func_name)] in front of [func]. *)
Definition decorate_addCNodeMethod (cnode_name : string)
    (func_name : option string) (func : pyval) (st : module_state)
    : pyresult (pyval * module_state) :=
  _internal_addcnodemeth cnode_name func_name func (addCNodeMethod cnode_name st).

(** The loop of [buildCNode] over [cls.__bases__], filling [lb]. *)
Fixpoint buildCNode_bases (citem2cnode : gmap cref cref) (bases : list cref)
    (lb : list cref) : pyresult (list cref) :=
  match bases with
  | [] => Return lb
  | b :: bases =>
    match citem2cnode !! b with
    | None => Raise AssertionError
    | Some cn => buildCNode_bases citem2cnode bases (lb ++ [cn])
    end
  end.

(** The loop of [buildCNode] over [_cnodeMethods[cn_cls_nm]]. *)
Fixpoint buildCNode_methods (l : list (string * pyval))
    (attr : gmap string pyval) : gmap string pyval :=
  match l with
  | [] => attr
  | (na, f) :: l => buildCNode_methods l (<[na := f]> attr)
  end.

(** [buildCNode(cls)].  [type(name, bases, attr)] is the creation of a
    class object with that name, those bases and that dictionary, under an
    identity no class object has yet. *)
Definition buildCNode (cls : cref) (st : module_state)
    : pyresult (cref * module_state) :=
  match _citem2cnode st !! cls with
  | Some _ => Raise AssertionError
  | None =>
    match classes st !! cls with
    | None => Raise AttributeError
    | Some c =>
      lb ← buildCNode_bases (_citem2cnode st) (c_bases c) [];
      let attr := c_dict c in
      let attr := <["__module__" := PStr module_name]> attr in
      let attr := <["__doc__" := PStr (cnode_doc (c_name c))]> attr in
      let cn_cls_nm := str_replace "HxC" "CNode" (c_name c) in
      let attr :=
        match _cnodeMethods st !! cn_cls_nm with
        | Some l => buildCNode_methods l attr
        | None => attr
        end in
      let cn_cls : cref := fresh (dom (classes st)) in
      let cn_class := {| c_name := cn_cls_nm; c_bases := lb; c_dict := attr |} in
      Return (cls,
        {| classes := <[cn_cls := cn_class]> (classes st);
           _citem2cnode := <[cls := cn_cls]> (_citem2cnode st);
           _cnodeMethods := _cnodeMethods st;
           globals := <[cn_cls_nm := PClass cn_cls]> (globals st) |})
    end
  end.

(** The function registered last under the name [na] in a list of
    [_cnodeMethods]. *)
Fixpoint last_registered (l : list (string * pyval)) (na : string) : option pyval :=
  match l with
  | [] => None
  | (n, f) :: l =>
    match last_registered l na with
    | Some g => Some g
    | None => if decide (n = na) then Some f else None
    end
  end.

(** Whether [old] occurs in [s]. *)
Fixpoint occurs (old s : string) : bool :=
  match s with
  | EmptyString => String.prefix old s
  | String _ s' => String.prefix old s || occurs old s'
  end.

(** The attributes [buildCNode] starts from: a copy of [cls.__dict__] with
    [__module__] and [__doc__] replaced. *)
Definition copied_attr (c : pyclass) : gmap string pyval :=
  <["__doc__" := PStr (cnode_doc (c_name c))]>
    (<["__module__" := PStr module_name]> (c_dict c)).

(** The class [buildCNode(cls)] generates: what [_citem2cnode[cls]] is
    afterwards. *)
Definition built_class (cls : cref) (st : module_state) : option pyclass :=
  match buildCNode cls st with
  | Return (_, st') => _citem2cnode st' !! cls ≫= fun cn => classes st' !! cn
  | _ => None
  end.

(** ** Sample data *)

Definition mkclass (nm : string) (bases : list cref)
    (d : list (string * pyval)) : pyclass :=
  {| c_name := nm; c_bases := bases; c_dict := list_to_map d |}.

(** [idc.BADADDR] of a 64-bit host. *)
Definition ex_BADADDR : Z := 0xFFFFFFFFFFFFFFFF.

Definition ex_func : HxCFunc := {| func_ea := 0x401000 |}.

(** A root block without address, an expression below it with one, and a
    variable below that without. *)
Definition ex_root : CNode :=
  mkCNode 6%positive (Citem 70 ex_BADADDR []) ex_func None.
Definition ex_expr : CNode :=
  mkCNode 4%positive (Citem 48 0x401010 [Citem 65 ex_BADADDR []]) ex_func
    (Some ex_root).
Definition ex_var : CNode :=
  mkCNode 5%positive (Citem 65 ex_BADADDR []) ex_func (Some ex_expr).

(** Two nodes on the same host item that differ. *)
Definition ex_twin_a : CNode := mkCNode 5%positive (Citem 65 0x401020 []) ex_func None.
Definition ex_twin_b : CNode :=
  mkCNode 5%positive (Citem 65 0x401020 []) ex_func (Some ex_root).


(** The module after its three base classes and the classes of the item
    hierarchy are defined, before any decorator ran. *)
Definition ex_state0 : module_state :=
  {| classes := list_to_map [
       (1%positive, mkclass "CNode" [10%positive] []);
       (2%positive, mkclass "CNodeExpr" [1%positive] []);
       (3%positive, mkclass "CNodeStmt" [1%positive] []);
       (10%positive, mkclass "AbstractCItem" [] []);
       (20%positive, mkclass "HxCItem" [10%positive] []);
       (21%positive, mkclass "HxCExpr" [20%positive] []);
       (22%positive, mkclass "HxCStmt" [20%positive] []);
       (23%positive, mkclass "HxCExprVar" [21%positive]
          [("index", PProperty (Some ("index", 7%positive)));
           ("TYPE_HANDLE", PStr "cot_var")]);
       (25%positive, mkclass "HxCExprHxCLike" [21%positive] [])];
     _citem2cnode := list_to_map
       [(20%positive, 1%positive); (21%positive, 2%positive);
        (22%positive, 3%positive)];
     _cnodeMethods := ∅;
     globals := ∅ |}.

Definition ex_lvar : pyval := PProperty (Some ("lvar", 101%positive)).
Definition ex_lvar_name : pyval := PProperty (Some ("lvar_name", 102%positive)).
Definition ex_ignore_cast : pyval := PProperty (Some ("ignore_cast", 103%positive)).

(** The decorators at the end of the module, in order. *)
Definition ex_decorated : pyresult module_state :=
  r ← decorate_addCNodeMethod "CNodeExprVar" None ex_lvar ex_state0;
  r ← decorate_addCNodeMethod "CNodeExprVar" None ex_lvar_name r.2;
  r ← decorate_addCNodeMethod "CNodeExprCast" None ex_ignore_cast r.2;
  Return r.2.

Definition ex_state : module_state :=
  match ex_decorated with
  | Return st => st
  | _ => ex_state0
  end.

(** A second function registered under a name already used. *)
Definition ex_lvar2 : pyval := PFunc "lvar" 104%positive.
Definition ex_state_twice : module_state :=
  match decorate_addCNodeMethod "CNodeExprVar" None ex_lvar2 ex_state with
  | Return r => r.2
  | _ => ex_state
  end.

(** The module after [buildCNode(HxCExprVar)]. *)
Definition ex_built : module_state :=
  match buildCNode 23%positive ex_state with
  | Return (_, st) => st
  | _ => ex_state
  end.

(** A hierarchy below [CNode] (class 1) and the item types its leaves
    handle: cast, variable, block. *)
Definition ex_classes : gmap cref pyclass := list_to_map [
  (1%positive, mkclass "CNode" [10%positive] []);
  (2%positive, mkclass "CNodeExpr" [1%positive] []);
  (3%positive, mkclass "CNodeStmt" [1%positive] []);
  (4%positive, mkclass "CNodeExprCast" [2%positive] []);
  (5%positive, mkclass "CNodeExprVar" [2%positive] []);
  (6%positive, mkclass "CNodeStmtBlock" [3%positive] [])].

Definition ex_is_handling_type (cl : cref) (o : Z) : bool :=
  match cl with
  | 4%positive => o =? 48
  | 5%positive => o =? 65
  | 6%positive => o =? 70
  | _ => false
  end.

Definition ex_is_cast (cl : cref) : bool := bool_decide (cl = 4%positive).

(** [(int)(long)v]: two casts around a variable. *)
Definition ex_cast_item : citem_t :=
  Citem 48 0x401010 [Citem 48 0x401010 [Citem 65 0x401010 []]].

(** ** Leftmost nodes of an expression *)

(** What [find_final_left_node] and [find_left_node_notmatching] end
    with: the node returned, the [Exception] of the first, the
    [IndexError] of [obj.ops[0]] on an empty list, an exception raised
    while [obj.ops] is read, or fuel that ran out. *)
Inductive left_outcome :=
  | Found (n : CNode)
  | RaisedException
  | RaisedIndexError
  | Failed (e : pyexn)
  | Unfinished.

Section LeftNode.

(** [obj.ops], the property the class of [obj] resolves to ([CNodeExpr]
    gives the empty list, its subclasses their child expressions). *)
Variable ops : CNode -> pyresult (list CNode).

(** [isinstance(obj, cl)]. *)
Variable isinstance : CNode -> cref -> bool.

(** The class object [CNodeExprFinal]. *)
Variable CNodeExprFinal_cls : cref.

(** [obj.ops[0]]. *)
Definition ops_0 (obj : CNode) (k : CNode -> left_outcome) : left_outcome :=
  match ops obj with
  | Return l =>
    match l !! 0%nat with
    | Some o => k o
    | None => RaisedIndexError
    end
  | Raise e => Failed e
  | OutOfFuel => Unfinished
  end.

Fixpoint find_final_left_node_while (fuel : nat) (obj : CNode) : left_outcome :=
  match fuel with
  | O => Unfinished
  | S fuel =>
    if negb (isinstance obj CNodeExprFinal_cls) then
      match ops obj with
      | Return l =>
        if decide (length l = 0%nat) then RaisedException
        else ops_0 obj (find_final_left_node_while fuel)
      | Raise e => Failed e
      | OutOfFuel => Unfinished
      end
    else Found obj
  end.

Definition find_final_left_node (fuel : nat) (self : CNode) : left_outcome :=
  let obj := self in
  find_final_left_node_while fuel obj.

(** [isinstance(obj, tuple(li))]. *)
Definition isinstance_any (obj : CNode) (li : list cref) : bool :=
  existsb (isinstance obj) li.

Fixpoint find_left_node_notmatching_while (fuel : nat) (li : list cref)
    (obj : CNode) : left_outcome :=
  match fuel with
  | O => Unfinished
  | S fuel =>
    if isinstance_any obj li && negb (isinstance obj CNodeExprFinal_cls) then
      ops_0 obj (find_left_node_notmatching_while fuel li)
    else Found obj
  end.

Definition find_left_node_notmatching (fuel : nat) (self : CNode)
    (li : list cref) : left_outcome :=
  let obj := self in
  find_left_node_notmatching_while fuel li obj.

(** [m] is reached from [n] in [k] steps to the first element of [ops],
    through nodes on which [go_on] holds. *)
Inductive left_path (go_on : CNode -> bool) : nat -> CNode -> CNode -> Prop :=
  | left_path_here n : left_path go_on 0 n n
  | left_path_step k n o l m :
      go_on n = true -> ops n = Return (o :: l) ->
      left_path go_on k o m -> left_path go_on (S k) n m.

End LeftNode.

(** [ops] on the sample hierarchy: a node has the node of its first
    operand item as only child expression, and none without operand. *)
Definition ex_ops (n : CNode) : pyresult (list CNode) :=
  match x (_citem n) with
  | None => Return []
  | Some c =>
    o ← _createChild ex_classes 1%positive ex_is_handling_type
          (fun _ _ => 0%nat) n (Some c);
    Return [o]
  end.

(** [isinstance] on the sample hierarchy: every node is a [CNodeExpr]
    (class 2) and an instance of its own class. *)
Definition ex_isinstance (n : CNode) (cl : cref) : bool :=
  bool_decide (cl = 2%positive) || bool_decide (n_class n = cl).

(** The variable under the two casts of [ex_cast_item]. *)
Definition ex_cast_var : CNode :=
  mkCNode 5%positive (Citem 65 0x401010 []) ex_func
    (Some (mkCNode 4%positive (Citem 48 0x401010 [Citem 65 0x401010 []])
             ex_func
             (Some (mkCNode 4%positive ex_cast_item ex_func None)))).

(** ** The dictionary [_citem2cnode] *)

(** [_citem2cnode] sends every key to a class object of the module and
    sends different keys to different classes. *)
Definition citem2cnode_ok (st : module_state) : Prop :=
  map_Forall (fun _ cn => is_Some (classes st !! cn)) (_citem2cnode st) /\
  NoDup (map_to_list (_citem2cnode st)).*2.

(** The sample module with a class derived from [HxCExprVar]. *)
Definition ex_state_derived : module_state :=
  {| classes :=
       <[27%positive := mkclass "HxCExprVarArg" [23%positive] []]>
         (classes ex_state);
     _citem2cnode := _citem2cnode ex_state;
     _cnodeMethods := _cnodeMethods ex_state;
     globals := globals ex_state |}.

(** The sample module after [buildCNode(HxCExprVar)] and then
    [buildCNode(HxCExprHxCLike)]. *)
Definition ex_built2 : module_state :=
  match buildCNode 25%positive ex_built with
  | Return (_, st) => st
  | _ => ex_built
  end.

(** On the sample module only the class generated for [HxCExprVar]
    (class 26) handles the type of a variable. *)
Definition ex_built_handling (cl : cref) (o : Z) : bool :=
  bool_decide (cl = 26%positive) && (o =? 65).

(** ** The attributes of a node object

    The instance dictionary of a node, the constructors that fill it and
    the accessors that read it, with the dictionary passed explicitly. *)

(** What an attribute of a node is bound to: an item of the host, the
    wrapper of a function, or a node ([None] for the parent of a root). *)
Inductive attr_value :=
  | AItem (c : citem_t)
  | AFunc (f : HxCFunc)
  | ANode (n : option CNode).

(** [self.__dict__]. *)
Definition obj_dict := gmap string attr_value.

(** A method body run on [self]: its outcome and the attributes of
    [self] when it ends. *)
Definition meth (A : Type) : Type := obj_dict -> pyresult A * obj_dict.

#[global] Instance meth_ret : MRet meth := fun A a d => (Return a, d).
#[global] Instance meth_bind : MBind meth := fun A B k m d =>
  match m d with
  | (Return a, d') => k a d'
  | (Raise e, d') => (Raise e, d')
  | (OutOfFuel, d') => (OutOfFuel, d')
  end.

Definition meth_raise {A} (e : pyexn) : meth A := fun d => (Raise e, d).

(** [self.k]. *)
Definition getattr (k : string) : meth attr_value := fun d =>
  (match d !! k with
   | Some v => Return v
   | None => Raise AttributeError
   end, d).

(** [self.k = v]. *)
Definition setattr (k : string) (v : attr_value) : meth unit := fun d =>
  (Return tt, <[k := v]> d).

(** The node of class [cl] that the attributes [d] stand for. *)
Definition node_of (cl : cref) (d : obj_dict) : option CNode :=
  match d !! "_citem", d !! "_hxcfunc", d !! "_parent" with
  | Some (AItem c), Some (AFunc f), Some (ANode p) => Some (mkCNode cl c f p)
  | _, _, _ => None
  end.

Module Obj.

(** [AbstractCItem.__init__(citem)], the constructor of the base class
    (module astnode): it provides [self._citem], as the comment at its
    call in [CNode.__init__] says. *)
Definition AbstractCItem___init__ (citem : citem_t) : meth unit :=
  setattr "_citem" (AItem citem).

Definition CNode___init__ (citem : citem_t) (hxcfunc : HxCFunc)
    (parent : option CNode) : meth unit :=
  _ ← AbstractCItem___init__ citem;
  _ ← setattr "_hxcfunc" (AFunc hxcfunc);
  setattr "_parent" (ANode parent).

Definition CNodeExpr___init__ (cexpr : citem_t) (hxcfunc : HxCFunc)
    (parent : option CNode) : meth unit :=
  _ ← CNode___init__ cexpr hxcfunc parent;
  setattr "_cexpr" (AItem cexpr).

Definition CNodeStmt___init__ (cinsn : citem_t) (hxcfunc : HxCFunc)
    (parent : option CNode) : meth unit :=
  _ ← CNode___init__ cinsn hxcfunc parent;
  setattr "_cinsn" (AItem cinsn).

(** [cl(citem, hxcfunc, parent)]: the attributes of a new object, which
    has none, after the constructor [init] of its class ran. *)
Definition new (init : meth unit) : pyresult unit * obj_dict := init ∅.

(** [AbstractCItem.ea]: the address of the item under [self._citem];
    of the values an attribute can hold, items and nodes have one. *)
Definition AbstractCItem_ea : meth Z :=
  c ← getattr "_citem";
  match c with
  | AItem c => mret (ea c)
  | ANode (Some n) => mret (node_ea n)
  | _ => meth_raise AttributeError
  end.

Definition has_parent : meth bool :=
  p ← getattr "_parent";
  match p with
  | ANode None => mret false
  | _ => mret true
  end.

Section Parent.

Variable __str__ : meth string.

Definition parent : meth attr_value :=
  p ← getattr "_parent";
  match p with
  | ANode None =>
    msg ← __str__;
    meth_raise RuntimeError
  | _ => getattr "_parent"
  end.

End Parent.

Definition cfunc : meth attr_value := getattr "_hxcfunc".

Section ClosestEa.

Variable BADADDR : Z.

(** The loop runs on the parent [obj], a node with attributes of its
    own; a value that is no node has no [_parent] to go on with. *)
Definition closest_ea : meth (option Z) :=
  ea ← AbstractCItem_ea;
  obj ← getattr "_parent";
  ea ← match obj with
       | ANode None => mret ea
       | ANode (Some o) => mret (closest_ea_while BADADDR o ea)
       | _ => if ea =? BADADDR then meth_raise AttributeError else mret ea
       end;
  if ea =? BADADDR then mret None else mret (Some ea).

End ClosestEa.

End Obj.

(** ** The items below an item *)

(** The item followed by the items below it, operand after operand, each
    with all that is below it. *)
Fixpoint citem_preorder (c : citem_t) : list citem_t :=
  match c with
  | Citem _ _ childs =>
    c :: (fix below (l : list citem_t) : list citem_t :=
            match l with
            | [] => []
            | k :: l => citem_preorder k ++ below l
            end) childs
  end.

(** ** A root whose text cannot be built *)

(** [cl.__name__] on the sample hierarchy. *)
Definition ex_name (cl : cref) : string :=
  default "" (c_name <$> ex_classes !! cl).

(** A stand-in for [str.format]: it keeps the class name and drops the
    address and the children. *)
Definition ex_str_format (fmt name : string) (a : Z) (childs : list CNode)
    : pyresult string :=
  Return (name +:+ "(...)").

(** [str(n)] for the expressions of the sample hierarchy. *)
Definition ex___str__ : CNode -> pyresult string :=
  CNodeExpr___str__ ex_name ex_ops ex_str_format.

(** A cast at the root of a tree, over an item whose type (99) no class
    of the sample hierarchy handles. *)
Definition ex_orphan_cast : CNode :=
  mkCNode 4%positive (Citem 48 0x401010 [Citem 99 0x401014 []]) ex_func None.
(** * Properties *)

(** ** Nodes and their accessors *)

Lemma CNode_parent_ind (P : CNode -> Prop) :
  (forall cl c f, P (mkCNode cl c f None)) ->
  (forall cl c f p, P p -> P (mkCNode cl c f (Some p))) ->
  forall n, P n.
Proof.
  intros Hroot Hstep. fix IH 1. intros [cl c f [p|]].
  - apply Hstep, IH.
  - apply Hroot.
Qed.

(** Reading [n.parent]: with a parent it is returned, and [str(n)] is not
    evaluated; without one the message is built first, and the
    [RuntimeError] follows when [str(n)] has returned. *)
Lemma parent_outcome (__str__ : CNode -> pyresult string) (n : CNode) :
  parent __str__ n =
  match _parent n with
  | Some p => Return p
  | None => __str__ n ≫= fun _ => Raise RuntimeError
  end.
Proof. by destruct n as [cl c f [p|]]. Qed.


(** C6: a node constructed with a parent gives back, through [cfunc],
    [parent] and [has_parent], the handles it was constructed with. *)
Theorem init_accessors_roundtrip (cl : cref) (citem : citem_t)
    (hxcfunc : HxCFunc) (p : CNode) :
  let n := CNode___init__ cl citem hxcfunc (Some p) in
  cfunc n = hxcfunc /\ (forall __str__, parent __str__ n = Return p) /\
  has_parent n = true /\ _citem n = citem.
Proof. by repeat split. Qed.


(** What [CNode.__init__] leaves in the attributes. *)
Lemma init_CNode_attrs (d0 : obj_dict) (c : citem_t) (f : HxCFunc) (p : option CNode) :
  Obj.CNode___init__ c f p d0 =
  (Return tt, <["_parent" := ANode p]> (<["_hxcfunc" := AFunc f]> (<["_citem" := AItem c]> d0))).
Proof. reflexivity. Qed.

(** On attributes that stand for the node [n] the accessors return what
    they return on [n]. *)
Lemma node_of_accessors (BADADDR : Z) (__str__ : meth string) (cl : cref)
    (d : obj_dict) (n : CNode) :
  node_of cl d = Some n ->
  Obj.has_parent d = (Return (has_parent n), d) /\
  Obj.cfunc d = (Return (AFunc (cfunc n)), d) /\
  Obj.closest_ea BADADDR d = (closest_ea BADADDR n, d) /\
  Obj.AbstractCItem_ea d = (Return (node_ea n), d) /\
  (forall p, _parent n = Some p ->
     Obj.parent __str__ d = (Return (ANode (Some p)), d)) /\
  (_parent n = None ->
     Obj.parent __str__ d =
     ((__str__ d).1 ≫= fun _ => Raise RuntimeError, (__str__ d).2)).
Proof.
  unfold node_of. intros Hn.
  destruct (d !! "_citem") as [[c| |]|] eqn:Hc; try done.
  destruct (d !! "_hxcfunc") as [[|f|]|] eqn:Hf; try done.
  destruct (d !! "_parent") as [[| |p]|] eqn:Hp; try done.
  injection Hn as <-.
  unfold Obj.has_parent, Obj.cfunc, Obj.closest_ea, Obj.AbstractCItem_ea,
    Obj.parent, getattr, mbind, meth_bind, mret, meth_ret, meth_raise.
  rewrite Hc, Hf, Hp. cbn.
  repeat split.
  - by destruct p.
  - unfold closest_ea, node_ea. cbn. destruct p as [o|]; cbn.
    + by destruct (closest_ea_while BADADDR o (ea c) =? BADADDR).
    + by destruct (ea c =? BADADDR).
  - intros q ->. by rewrite Hp.
  - intros ->. by destruct (__str__ d) as [[s| |] d'].
Qed.

(** The accessors leave the attributes as they are. *)
Lemma accessors_store_nothing (BADADDR : Z) (d : obj_dict) :
  (Obj.has_parent d).2 = d /\ (Obj.cfunc d).2 = d /\
  (Obj.closest_ea BADADDR d).2 = d /\ (Obj.AbstractCItem_ea d).2 = d /\
  (forall __str__ : meth string,
     (Obj.parent __str__ d).2 = d \/
     (Obj.parent __str__ d).2 = (__str__ d).2).
Proof.
  unfold Obj.has_parent, Obj.cfunc, Obj.closest_ea, Obj.AbstractCItem_ea,
    Obj.parent, getattr, mbind, meth_bind, mret, meth_ret, meth_raise.
  split; [|split; [|split; [|split]]].
  - by destruct (d !! "_parent") as [[| |[|]]|].
  - done.
  - destruct (d !! "_citem") as [[c| |[n|]]|]; try done;
      destruct (d !! "_parent") as [[| |[o|]]|]; try done;
      repeat (match goal with |- context [ ?a =? ?b ] => destruct (a =? b) end;
              try done).
  - by destruct (d !! "_citem") as [[c| |[n|]]|].
  - intros __str__. destruct (d !! "_parent") as [[| |[o|]]|] eqn:Hp;
      rewrite ?Hp; auto.
    right. by destruct (__str__ d) as [[s| |] d'].
Qed.


Section ClosestEaProps.

Variable BADADDR : Z.

Lemma first_address_cons (n : CNode) (l : list CNode) :
  first_address BADADDR (n :: l) =
  if node_ea n =? BADADDR then first_address BADADDR l else Some (node_ea n).
Proof.
  unfold first_address. rewrite fmap_cons, filter_cons.
  destruct (Z.eqb_spec (node_ea n) BADADDR); case_decide; done.
Qed.

Lemma closest_ea_while_chain (o : CNode) (e : Z) :
  closest_ea_while BADADDR o e =
  if e =? BADADDR
  then default BADADDR (first_address BADADDR (parent_chain o))
  else e.
Proof.
  revert e. induction o as [cl c f|cl c f p IH] using CNode_parent_ind;
    intros e; simpl; destruct (Z.eqb_spec e BADADDR) as [->|Hne]; try done;
    rewrite ?IH, first_address_cons; unfold node_ea; simpl;
    destruct (Z.eqb_spec (ea c) BADADDR) as [E|E]; rewrite ?E; done.
Qed.

Lemma first_address_not_bad (l : list CNode) (a : Z) :
  first_address BADADDR l = Some a -> a <> BADADDR.
Proof.
  unfold first_address. intros H.
  apply head_Some_elem_of, list_elem_of_filter in H. tauto.
Qed.

Lemma closest_ea_chain (self : CNode) :
  closest_ea BADADDR self = Return (first_address BADADDR (parent_chain self)).
Proof.
  unfold closest_ea.
  destruct self as [cl c f [p|]]; cbn [_parent parent_chain];
    rewrite first_address_cons.
  - rewrite closest_ea_while_chain.
    destruct (Z.eqb_spec (node_ea (mkCNode cl c f (Some p))) BADADDR) as [E|E].
    + destruct (first_address BADADDR (parent_chain p)) as [a|] eqn:Ha; simpl.
      * apply first_address_not_bad in Ha.
        destruct (Z.eqb_spec a BADADDR); done.
      * by rewrite Z.eqb_refl.
    + destruct (Z.eqb_spec (node_ea (mkCNode cl c f (Some p))) BADADDR); done.
  - destruct (Z.eqb_spec (node_ea (mkCNode cl c f None)) BADADDR); done.
Qed.

(** C8: [closest_ea] returns the address of the first node of the parent
    chain (the node, then its ancestors up to the root) whose address is
    not [BADADDR], and [None] when the chain has no such node. *)
Theorem closest_ea_first_in_chain (self : CNode) :
  closest_ea BADADDR self =
    Return (node_ea <$>
            head (filter (fun m => node_ea m <> BADADDR) (parent_chain self))) /\
  ((forall m, m ∈ parent_chain self -> node_ea m = BADADDR) <->
   closest_ea BADADDR self = Return None).
Proof.
  rewrite closest_ea_chain. unfold first_address.
  assert (Hmap : forall l : list CNode,
    head (filter (fun a => a <> BADADDR) (node_ea <$> l)) =
    node_ea <$> head (filter (fun m => node_ea m <> BADADDR) l)).
  { induction l as [|m l IH]; [done|].
    rewrite fmap_cons, !filter_cons. repeat case_decide; done. }
  rewrite Hmap. split; [done|]. split.
  - intros Hall. f_equal.
    destruct (filter _ _) as [|m l] eqn:Hf; [done|].
    assert (Hm : m ∈ filter (fun m => node_ea m <> BADADDR) (parent_chain self))
      by (rewrite Hf; left).
    apply list_elem_of_filter in Hm as [Hm1 Hm2]. by apply Hall in Hm2.
  - intros [= Hnone] m Hm.
    destruct (decide (node_ea m = BADADDR)) as [|Hne]; [done|].
    assert (Hin : m ∈ filter (fun m => node_ea m <> BADADDR) (parent_chain self))
      by (apply list_elem_of_filter; done).
    destruct (filter _ _); [by apply elem_of_nil in Hin | done].
Qed.

(** C4, amended: when neither the node nor any of its ancestors has an
    address, [closest_ea] raises nothing and returns [None]. *)
Theorem closest_ea_none_without_address (self : CNode) :
  (forall m, m ∈ parent_chain self -> node_ea m = BADADDR) ->
  closest_ea BADADDR self = Return None /\ ~ raises (closest_ea BADADDR self).
Proof.
  intros Hall. assert (closest_ea BADADDR self = Return None) as ->.
  { rewrite closest_ea_chain. f_equal. unfold first_address.
    destruct (filter _ _) as [|a l] eqn:Hf; [done|].
    assert (Ha : a ∈ filter (fun a => a <> BADADDR) (node_ea <$> parent_chain self))
      by (rewrite Hf; left).
    apply list_elem_of_filter in Ha as [Ha1 Ha2].
    apply list_elem_of_fmap in Ha2 as (m & -> & Hm). by apply Hall in Hm. }
  split; [done|]. by intros [e He].
Qed.

End ClosestEaProps.

(** C4, as stated, fails: on a root without address nothing is raised. *)
Lemma closest_ea_does_not_raise :
  (forall m, m ∈ parent_chain ex_root -> node_ea m = ex_BADADDR) /\
  closest_ea ex_BADADDR ex_root = Return None /\
  ~ raises (closest_ea ex_BADADDR ex_root).
Proof.
  split; [|split].
  - intros m Hm. apply list_elem_of_singleton in Hm as ->. reflexivity.
  - reflexivity.
  - intros [e He]. discriminate He.
Qed.

Lemma closest_ea_none_without_address_witness :
  closest_ea ex_BADADDR ex_root = Return None /\
  ~ raises (closest_ea ex_BADADDR ex_root).
Proof.
  apply (closest_ea_none_without_address ex_BADADDR ex_root).
  intros m Hm. apply list_elem_of_singleton in Hm as ->. reflexivity.
Defined.

(** ** Dispatch on the item type *)

Lemma set_pop_Some (k : nat) (s : gset cref) (c : cref) (s' : gset cref) :
  set_pop k s = Some (c, s') -> c ∈ s /\ s' = s ∖ {[c]}.
Proof.
  unfold set_pop. destruct (elements s !! _) as [c0|] eqn:E; [|done].
  intros [= <- <-]. split; [|done].
  apply elem_of_elements, list_elem_of_lookup. eauto.
Qed.

Lemma set_pop_nonempty (k : nat) (s : gset cref) :
  size s <> 0%nat -> exists c s', set_pop k s = Some (c, s').
Proof.
  intros Hs. unfold set_pop.
  destruct (elements s !! _) as [c0|] eqn:E; [eauto|].
  apply lookup_ge_None in E. exfalso.
  assert (length (elements s) <> 0)%nat by done.
  pose proof (Nat.mod_upper_bound k (length (elements s))). lia.
Qed.

Lemma subclasses_in_classes (classes : gmap cref pyclass) (c c' : cref) :
  c' ∈ __subclasses__ classes c -> c' ∈ dom classes.
Proof.
  unfold __subclasses__. intros H.
  apply list_elem_of_fmap in H as ([k v] & -> & H).
  apply list_elem_of_filter in H as [_ H].
  apply elem_of_map_to_list in H. apply elem_of_dom. eauto.
Qed.

Lemma subclass_of_in_classes (classes : gmap cref pyclass) (root c : cref) :
  subclass_of classes root c -> c ∈ dom classes.
Proof. destruct 1; eauto using subclasses_in_classes. Qed.

Section GetCNodeProps.

Variable classes : gmap cref pyclass.
Variable CNode_cls : cref.
Variable is_handling_type : cref -> Z -> bool.
Variable pop_choice : gset cref -> gset cref -> nat.

Notation subclass := (subclass_of classes CNode_cls).
Notation loop := (GetCNode_while classes is_handling_type pop_choice).
Notation GetCNode_inv := (GetCNode_inv classes CNode_cls is_handling_type).
Notation GetCNode_post := (GetCNode_post classes CNode_cls is_handling_type).

Lemma GetCNode_inv_exhausted (o : Z) (done : gset cref) (c : cref) :
  GetCNode_inv o done ∅ -> subclass c -> is_handling_type c o = false.
Proof.
  intros [Hb Hd Hr Hc] Hsub. apply Hd.
  induction Hsub as [c Hc0|c c' _ IH Hc'].
  - apply Hr in Hc0. set_solver.
  - specialize (Hc _ _ IH Hc'). set_solver.
Qed.

Lemma GetCNode_while_post (fuel : nat) (citem : citem_t) (hxcfunc : HxCFunc)
    (parent : option CNode) (done todo : gset cref) :
  GetCNode_inv (op citem) done todo ->
  (size (dom classes ∖ done) * S (size classes) + size todo < fuel)%nat ->
  GetCNode_post citem hxcfunc parent
    (loop fuel citem hxcfunc parent done todo).
Proof.
  revert done todo. induction fuel as [|fuel IH]; intros done todo Hinv Hfuel;
    [lia|].
  simpl. case_decide as Hsz.
  - destruct (set_pop_nonempty (pop_choice done todo) todo Hsz)
      as (cl & todo' & Hpop).
    rewrite Hpop. apply set_pop_Some in Hpop as [Hcl ->].
    destruct Hinv as [Hb Hd Hr Hc].
    assert (Hlt : (size (todo ∖ {[cl]}) < size todo)%nat).
    { apply subset_size. set_solver. }
    case_decide as Hdone.
    + apply IH; [|lia]. split; [|done| |].
      * intros c Hc0. apply Hb. set_solver.
      * intros c Hc0. apply Hr in Hc0.
        destruct (decide (c = cl)); set_solver.
      * intros d c Hd0 Hc0. specialize (Hc _ _ Hd0 Hc0).
        destruct (decide (c = cl)); set_solver.
    + destruct (is_handling_type cl (op citem)) eqn:Hh.
      * right. exists cl. split; [apply Hb; set_solver | done].
      * assert (Hsub : subclass cl) by (apply Hb; set_solver).
        apply IH.
        { split.
          - intros c Hc0.
            apply elem_of_union in Hc0 as [Hc0|Hc0]; [apply Hb; set_solver|].
            apply elem_of_union in Hc0 as [Hc0|Hc0]; [apply Hb; set_solver|].
            apply elem_of_list_to_set in Hc0.
            by apply subclass_below with cl.
          - intros c Hc0. apply elem_of_union in Hc0 as [Hc0|Hc0]; [by apply Hd|].
            by apply elem_of_singleton in Hc0 as ->.
          - intros c Hc0. apply Hr in Hc0.
            destruct (decide (c = cl)); set_solver.
          - intros d c Hd0 Hc0.
            apply elem_of_union in Hd0 as [Hd0|Hd0].
            + specialize (Hc _ _ Hd0 Hc0). destruct (decide (c = cl)); set_solver.
            + apply elem_of_singleton in Hd0 as ->.
              assert (c ∈ (list_to_set (__subclasses__ classes cl) : gset cref))
                by by apply elem_of_list_to_set.
              set_solver. }
        assert (Hin : cl ∈ dom classes) by by eapply subclass_of_in_classes.
        assert (Hd1 : (size (dom classes ∖ (done ∪ {[cl]}))
                       < size (dom classes ∖ done))%nat).
        { apply subset_size. set_solver. }
        assert (Hd2 : (size (todo ∖ {[cl]} ∪ list_to_set (__subclasses__ classes cl))
                       <= size classes)%nat).
        { rewrite <- size_dom. apply subseteq_size.
          intros c Hc0. apply elem_of_union in Hc0 as [Hc0|Hc0].
          - eapply subclass_of_in_classes, Hb. set_solver.
          - apply elem_of_list_to_set in Hc0.
            by eapply subclasses_in_classes. }
        nia.
  - left. split; [done|].
    assert (todo = ∅) as -> by by apply leibniz_equiv, size_empty_iff.
    intros c Hc. by eapply GetCNode_inv_exhausted.
Qed.

Lemma GetCNode_post_holds (citem : citem_t) (hxcfunc : HxCFunc)
    (parent : option CNode) :
  GetCNode_post citem hxcfunc parent
    (GetCNode classes CNode_cls is_handling_type pop_choice
       citem hxcfunc parent).
Proof.
  unfold GetCNode. apply GetCNode_while_post.
  - split.
    + intros c Hc. apply subclass_direct. set_solver.
    + set_solver.
    + set_solver.
    + set_solver.
  - unfold GetCNode_fuel.
    assert (H1 : (size (dom classes ∖ (∅ : gset cref)) <= size classes)%nat).
    { rewrite <- size_dom. apply subseteq_size. set_solver. }
    assert (H2 : (size (list_to_set (__subclasses__ classes CNode_cls) : gset cref)
                  <= size classes)%nat).
    { rewrite <- size_dom. apply subseteq_size. intros c Hc.
      apply elem_of_list_to_set in Hc. by eapply subclasses_in_classes. }
    nia.
Qed.

(** What [GetCNode] returns is an object made by the constructor with
    the arguments of the call. *)
Lemma GetCNode_Return (citem : citem_t) (hxcfunc : HxCFunc)
    (parent : option CNode) (n : CNode) :
  GetCNode classes CNode_cls is_handling_type pop_choice citem hxcfunc parent
    = Return n ->
  n = CNode___init__ (n_class n) citem hxcfunc parent /\
  subclass (n_class n) /\ is_handling_type (n_class n) (op citem) = true.
Proof.
  intros Hn.
  destruct (GetCNode_post_holds citem hxcfunc parent)
    as [[Hr _]|(cl & Hsub & Hh & Hr)]; rewrite Hn in Hr; [done|].
  injection Hr as ->. done.
Qed.

(** C1: [GetCNode] walks the classes below [CNode]; when one of them
    handles [citem.op] it returns an object of such a class, made by
    [cl(citem, hxcfunc, parent)]; when none does it raises [ValueError].
    This holds whichever element each [todo.pop()] returns. *)
Theorem GetCNode_dispatch (citem : citem_t) (hxcfunc : HxCFunc)
    (parent : option CNode) :
  ((exists cl, subclass cl /\ is_handling_type cl (op citem) = true) ->
   exists cl, subclass cl /\ is_handling_type cl (op citem) = true /\
     GetCNode classes CNode_cls is_handling_type pop_choice
       citem hxcfunc parent = Return (CNode___init__ cl citem hxcfunc parent)) /\
  ((forall cl, subclass cl -> is_handling_type cl (op citem) = false) ->
   GetCNode classes CNode_cls is_handling_type pop_choice
     citem hxcfunc parent = Raise ValueError).
Proof.
  destruct (GetCNode_post_holds citem hxcfunc parent)
    as [[Hr Hnone]|(cl & Hsub & Hh & Hr)]; split.
  - intros (cl & Hsub & Hh). apply Hnone in Hsub. congruence.
  - done.
  - eauto.
  - intros Hnone. apply Hnone in Hsub. congruence.
Qed.

End GetCNodeProps.

(** ** Casts *)

Lemma citem_t_ind' (P : citem_t -> Prop) :
  (forall o a l, Forall P l -> P (Citem o a l)) -> forall c, P c.
Proof.
  intros HP. fix IH 1. intros [o a l]. apply HP.
  induction l as [|k l IHl]; constructor; [apply IH | exact IHl].
Qed.

Lemma pyresult_bind_Return {A B} (r : pyresult A) (k : A -> pyresult B) (b : B) :
  r ≫= k = Return b -> exists a, r = Return a /\ k a = Return b.
Proof. destruct r; simpl; [eauto | done | done]. Qed.

Section IgnoreCast.

Variable classes : gmap cref pyclass.
Variable CNode_cls : cref.
Variable is_handling_type : cref -> Z -> bool.
Variable pop_choice : gset cref -> gset cref -> nat.
Variable is_cast : cref -> bool.

Notation GetCNode' := (GetCNode classes CNode_cls is_handling_type pop_choice).
Notation ignore_cast' := (ignore_cast classes CNode_cls is_handling_type pop_choice is_cast).
Notation ignore_cast_of' := (ignore_cast_of classes CNode_cls is_handling_type pop_choice is_cast).
Notation operand' := (operand classes CNode_cls is_handling_type pop_choice).

Lemma ignore_cast_not_cast (self : CNode) :
  is_cast_node is_cast self = false -> ignore_cast' self = Return self.
Proof.
  destruct self as [cl [o a l] f p]. unfold is_cast_node, ignore_cast.
  simpl. by intros ->.
Qed.

(** The getter of a cast is [self.operand.ignore_cast]. *)
Lemma ignore_cast_cast (self : CNode) :
  is_cast_node is_cast self = true ->
  ignore_cast' self = operand' self ≫= ignore_cast'.
Proof.
  destruct self as [cl [o a l] f p]. unfold is_cast_node, ignore_cast.
  simpl. intros ->. unfold operand, _createChild, x. simpl.
  destruct l as [|cx l]; [done|]. simpl.
  destruct (GetCNode' cx f (Some _)) as [child| |] eqn:Hc; [|done|done].
  simpl. apply GetCNode_Return in Hc as [Hc _]. rewrite Hc at 5. done.
Qed.

Lemma ignore_cast_of_result (c : citem_t) :
  forall cl f p r,
    ignore_cast_of' cl c f p = Return r ->
    is_cast_node is_cast r = false /\ ignore_cast' r = Return r.
Proof.
  induction c as [o a l IH] using citem_t_ind'. intros cl f p r. simpl.
  destruct (is_cast cl) eqn:Hcl.
  - destruct l as [|cx l]; [done|]. intros Hr.
    apply pyresult_bind_Return in Hr as (child & _ & Hr).
    apply Forall_cons in IH as [IH _]. by eapply IH.
  - intros [= <-]. split; [done|]. by apply ignore_cast_not_cast.
Qed.

Lemma ignore_cast_of_terminates (c : citem_t) :
  forall cl f p, ignore_cast_of' cl c f p <> OutOfFuel.
Proof.
  induction c as [o a l IH] using citem_t_ind'. intros cl f p. simpl.
  destruct (is_cast cl); [|done]. destruct l as [|cx l]; [done|].
  apply Forall_cons in IH as [IH _].
  destruct (GetCNode' cx f (Some _)) as [child| |] eqn:Hc; simpl.
  - apply IH.
  - done.
  - destruct (GetCNode_post_holds classes CNode_cls is_handling_type
      pop_choice cx f (Some (mkCNode cl (Citem o a (cx :: l)) f p)))
      as [[Hr _]|(cl' & _ & _ & Hr)]; congruence.
Qed.

(** C9: [ignore_cast] always ends; what it returns is never a cast, so
    reading [ignore_cast] again gives the same node; a node that is not
    a cast is its own [ignore_cast]. *)
Theorem ignore_cast_idempotent (self : CNode) :
  ignore_cast' self <> OutOfFuel /\
  (forall r, ignore_cast' self = Return r ->
     is_cast_node is_cast r = false /\ ignore_cast' r = Return r) /\
  ignore_cast' self ≫= ignore_cast' = ignore_cast' self /\
  (is_cast_node is_cast self = false -> ignore_cast' self = Return self).
Proof.
  split; [apply ignore_cast_of_terminates|].
  split; [intros r; apply ignore_cast_of_result|].
  split; [|apply ignore_cast_not_cast].
  destruct (ignore_cast' self) as [r| |] eqn:Hr; [|done|done].
  simpl. by apply ignore_cast_of_result in Hr as [_ Hr].
Qed.

End IgnoreCast.

(** ** Visitors *)

Lemma pyresult_fmap_bind {A B C} (r : pyresult A) (k : A -> pyresult B) (g : B -> C) :
  g <$> (r ≫= k) = r ≫= (fun a => g <$> k a).
Proof. by destruct r. Qed.

Lemma foldl_record (l acc : list CNode) :
  foldl (fun l cn => l ++ [cn]) acc l = acc ++ l.
Proof.
  revert acc. induction l as [|n l IH]; intros acc; simpl.
  - by rewrite app_nil_r.
  - by rewrite IH, <- app_assoc.
Qed.

Lemma foldl_app_filt (cb_filter : CNode -> bool) (l acc : list CNode) :
  foldl (fun l cn => _app_filt cb_filter cn l) acc l =
  acc ++ filter (fun cn => cb_filter cn = true) l.
Proof.
  revert acc. induction l as [|n l IH]; intros acc; simpl.
  - by rewrite app_nil_r.
  - rewrite IH, filter_cons. unfold _app_filt.
    destruct (cb_filter n); case_decide; try done. by rewrite <- app_assoc.
Qed.

Section VisitorProps.

Variable classes : gmap cref pyclass.
Variable CNode_cls : cref.
Variable is_handling_type : cref -> Z -> bool.
Variable pop_choice : gset cref -> gset cref -> nat.

Notation GetCNode' := (GetCNode classes CNode_cls is_handling_type pop_choice).
Notation visit' := (visit_dfs_cnode classes CNode_cls is_handling_type pop_choice).
Notation nodes' := (dfs_nodes classes CNode_cls is_handling_type pop_choice).
Notation visit_cnode' := (visit_cnode classes CNode_cls is_handling_type pop_choice).
Notation visited' := (visited classes CNode_cls is_handling_type pop_choice).
Notation get_cnode_filter' :=
  (get_cnode_filter classes CNode_cls is_handling_type pop_choice).

(** A visit is the fold of the callback over the nodes in DFS order. *)
Lemma visit_dfs_cnode_fold {S : Type} (callback : CNode -> S -> S) (c : citem_t) :
  forall cl f p st,
    visit' callback cl c f p st =
    foldl (fun st cn => callback cn st) st <$> nodes' cl c f p.
Proof.
  induction c as [o a l IH] using citem_t_ind'. intros cl f p st.
  cbn [visit_dfs_cnode dfs_nodes].
  generalize (mkCNode cl (Citem o a l) f p). intros elt.
  rewrite pyresult_fmap_bind. cbn [fmap pyresult_fmap foldl].
  generalize (callback elt st). clear st.
  induction l as [|k l IHl]; intros st; [done|].
  apply Forall_cons in IH as [IHk IH]. specialize (IHl IH).
  destruct (GetCNode' k f (Some elt)) as [child| |]; [|done|done].
  cbn [mbind pyresult_bind]. rewrite IHk.
  destruct (nodes' (n_class child) k (_hxcfunc child) (_parent child))
    as [l1| |]; [|done|done].
  cbn [fmap pyresult_fmap mbind pyresult_bind]. rewrite IHl.
  match goal with |- context [ (?F l) ≫= _ ] => destruct (F l) as [l2| |] end;
    [|done|done].
  cbn. by rewrite foldl_app.
Qed.

Lemma dfs_nodes_terminates (c : citem_t) :
  forall cl f p, nodes' cl c f p <> OutOfFuel.
Proof.
  induction c as [o a l IH] using citem_t_ind'. intros cl f p.
  cbn [dfs_nodes]. generalize (mkCNode cl (Citem o a l) f p). intros elt.
  match goal with |- ?F l ≫= _ <> _ =>
    assert (Hl : F l <> OutOfFuel); [|by destruct (F l)] end.
  induction l as [|k l IHl]; [done|].
  apply Forall_cons in IH as [IHk IH]. specialize (IHl IH).
  destruct (GetCNode' k f (Some elt)) as [child| |] eqn:Hc.
  - cbn [mbind pyresult_bind]. specialize (IHk (n_class child)
      (_hxcfunc child) (_parent child)).
    destruct (nodes' _ k _ _) as [l1| |]; [|done|done].
    cbn [mbind pyresult_bind].
    match goal with |- ?F l ≫= _ <> _ => by destruct (F l) end.
  - done.
  - destruct (GetCNode_post_holds classes CNode_cls is_handling_type
      pop_choice k f (Some elt)) as [[Hr _]|(cl' & _ & _ & Hr)]; congruence.
Qed.

Lemma visited_nodes (self : CNode) :
  visited' self =
  nodes' (n_class self) (_citem self) (_hxcfunc self) (_parent self).
Proof.
  unfold visited, visit_cnode. rewrite visit_dfs_cnode_fold.
  destruct (nodes' _ _ _ _) as [l| |]; [|done|done].
  cbn. by rewrite foldl_record.
Qed.

(** The nodes of a visit: the first is the node visited, their items are
    the items below it in pre-order, all belong to its function, and
    every other node has its parent among them. *)
Lemma dfs_nodes_shape (c : citem_t) :
  forall cl f p l,
    nodes' cl c f p = Return l ->
    exists below,
      l = mkCNode cl c f p :: below /\
      _citem <$> l = citem_preorder c /\
      Forall (fun n => _hxcfunc n = f) l /\
      Forall (fun n => exists m, _parent n = Some m /\ m ∈ l) below.
Proof.
  induction c as [o a ks IH] using citem_t_ind'. intros cl f p l.
  cbn [dfs_nodes citem_preorder]. intros Hl.
  apply pyresult_bind_Return in Hl as (below & Hbelow & [= <-]).
  exists below. split; [done|].
  set (elt := mkCNode cl (Citem o a ks) f p) in *.
  enough (_citem <$> below =
            (fix below (l : list citem_t) : list citem_t :=
               match l with
               | [] => []
               | k :: l => citem_preorder k ++ below l
               end) ks /\
          Forall (fun n => _hxcfunc n = f) below /\
          Forall (fun n => exists m, _parent n = Some m /\
                                     (m = elt \/ m ∈ below)) below)
    as (H1 & H2 & H3).
  { split; [by rewrite fmap_cons, H1|]. split; [by constructor|].
    eapply Forall_impl; [exact H3|]. cbn. intros n (m & Hm & [->|Hin]).
    - exists elt. split; [done|]. apply elem_of_cons. by left.
    - exists m. split; [done|]. apply elem_of_cons. by right. }
  clearbody elt.
  revert below Hbelow.
  induction ks as [|k ks IHks]; intros below Hbelow.
  - injection Hbelow as <-. by repeat split.
  - apply Forall_cons in IH as [IHk IH]. specialize (IHks IH).
    apply pyresult_bind_Return in Hbelow as (child & Hchild & Hbelow).
    apply pyresult_bind_Return in Hbelow as (l1 & Hl1 & Hbelow).
    apply pyresult_bind_Return in Hbelow as (l2 & Hl2 & [= <-]).
    apply GetCNode_Return in Hchild as [Hchild _].
    destruct child as [ccl cc cf cp]. unfold CNode___init__ in Hchild.
    cbn [n_class _hxcfunc _parent] in Hchild, Hl1.
    injection Hchild as -> -> ->.
    destruct (IHk _ _ _ _ Hl1) as (b1 & -> & Hc1 & Hf1 & Hp1).
    destruct (IHks _ Hl2) as (Hc2 & Hf2 & Hp2).
    rewrite fmap_app, Hc1, Hc2. split; [done|]. split.
    + apply Forall_app. by split.
    + apply Forall_app. split.
      * constructor.
        -- exists elt. cbn. auto.
        -- eapply Forall_impl; [exact Hp1|]. intros n (m & Hm & Hin).
           exists m. split; [done|]. right. set_solver.
      * eapply Forall_impl; [exact Hp2|]. intros n (m & Hm & [->|Hin]).
        -- exists elt. auto.
        -- exists m. split; [done|]. right. set_solver.
Qed.

(** C7: [get_cnode_filter] returns the nodes visited by [visit_cnode] on
    which [cb_filter] is true, in the order of the visit.  The visit
    always ends; the nodes visited are the node itself and all nodes
    below it, depth first: the first is the node itself, their items are
    the items below the item of the node in pre-order, they belong to
    its function, and each but the node itself has its parent among
    them. *)
Theorem get_cnode_filter_visited (self : CNode) (cb_filter : CNode -> bool) :
  get_cnode_filter' self cb_filter =
    filter (fun cn => cb_filter cn = true) <$> visited' self /\
  get_cnode_filter' self cb_filter <> OutOfFuel /\
  visited' self =
    nodes' (n_class self) (_citem self) (_hxcfunc self) (_parent self) /\
  (forall l, visited' self = Return l ->
     head l = Some self /\
     _citem <$> l = citem_preorder (_citem self) /\
     Forall (fun n => cfunc n = cfunc self) l /\
     Forall (fun n => n = self \/ exists m, _parent n = Some m /\ m ∈ l) l).
Proof.
  rewrite visited_nodes. unfold get_cnode_filter, visit_cnode.
  rewrite visit_dfs_cnode_fold.
  pose proof (dfs_nodes_terminates (_citem self) (n_class self)
    (_hxcfunc self) (_parent self)) as Hterm.
  destruct (nodes' _ _ _ _) as [l| |] eqn:Hl; [|done|done].
  cbn. rewrite foldl_app_filt. split; [done|]. split; [done|].
  split; [done|]. intros ? [= <-].
  apply dfs_nodes_shape in Hl as (below & -> & Hitems & Hfunc & Hpar).
  destruct self as [cl c f p]. cbn [n_class _citem _hxcfunc _parent] in *.
  split; [done|]. split; [done|]. split; [done|].
  constructor; [by left|].
  eapply Forall_impl; [exact Hpar|]. intros n Hn. by right.
Qed.

End VisitorProps.

(** ** Class generation *)

Lemma buildCNode_bases_images (m : gmap cref cref) (bases lb acc : list cref) :
  (fun b => m !! b) <$> bases = Some <$> lb ->
  buildCNode_bases m bases acc = Return (acc ++ lb).
Proof.
  revert lb acc. induction bases as [|b bases IH]; intros [|cn lb] acc; try done.
  - intros _. simpl. by rewrite app_nil_r.
  - rewrite !fmap_cons. intros [= Hb Hl]. simpl. rewrite Hb.
    rewrite (IH lb); [|done]. by rewrite <- app_assoc.
Qed.

Lemma buildCNode_bases_missing (m : gmap cref cref) (bases acc : list cref) (b : cref) :
  b ∈ bases -> m !! b = None ->
  buildCNode_bases m bases acc = Raise AssertionError.
Proof.
  revert acc. induction bases as [|b' bases IH]; intros acc Hin Hb.
  - by apply elem_of_nil in Hin.
  - simpl. destruct (m !! b') as [cn|] eqn:Hb'; [|done].
    apply IH; [|done]. apply elem_of_cons in Hin as [->|]; [congruence|done].
Qed.

Lemma buildCNode_methods_lookup (l : list (string * pyval))
    (attr : gmap string pyval) (na : string) :
  buildCNode_methods l attr !! na =
  match last_registered l na with
  | Some f => Some f
  | None => attr !! na
  end.
Proof.
  revert attr. induction l as [|[n f] l IH]; intros attr; [done|].
  simpl. rewrite IH. destruct (last_registered l na); [done|].
  case_decide as Hn.
  - subst. by rewrite lookup_insert_eq.
  - by rewrite lookup_insert_ne.
Qed.

Lemma last_registered_last (l : list (string * pyval)) (i : nat)
    (na : string) (f : pyval) :
  l !! i = Some (na, f) ->
  (forall j g, (i < j)%nat -> l !! j <> Some (na, g)) ->
  last_registered l na = Some f.
Proof.
  revert i. induction l as [|[n g] l IH]; intros i Hi Hlast; [done|].
  simpl. destruct i as [|i].
  - injection Hi as -> ->.
    destruct (last_registered l na) as [h|] eqn:Hh.
    + exfalso. clear IH. revert Hlast Hh. 
      assert (Hex : forall l, last_registered l na = Some h ->
                exists j, l !! j = Some (na, h)).
      { clear. induction l as [|[n g] l IH]; [done|]. simpl.
        destruct (last_registered l na) as [h'|].
        - intros [= ->]. destruct IH as [j Hj]; [done|]. by exists (S j).
        - case_decide; [|done]. intros [= ->]. subst. by exists 0%nat. }
      intros Hlast Hh. apply Hex in Hh as [j Hj].
      apply (Hlast (S j) h); [lia|done].
    + by rewrite decide_True.
  - simpl in Hi. erewrite IH; [done|exact Hi|].
    intros j h Hj. apply (Hlast (S j) h). lia.
Qed.

Lemma str_replace_no_occurrence (old new s : string) :
  occurs old s = false -> str_replace old new s = s.
Proof.
  unfold str_replace. induction s as [|ch s IH]; intros Hno; [done|].
  cbn [str_replace_from]. cbn [occurs] in Hno.
  apply orb_false_iff in Hno as [Hp Hno]. rewrite Hp. by rewrite IH.
Qed.

(** On a name [HxC<rest>] with no other [HxC], the replacement changes the
    prefix only. *)
Lemma str_replace_HxC_prefix (rest : string) :
  occurs "HxC" rest = false ->
  str_replace "HxC" "CNode" ("HxC" +:+ rest) = "CNode" +:+ rest.
Proof.
  intros Hno. unfold str_replace.
  change ("HxC" +:+ rest) with (String "H"%char (String "x"%char (String "C"%char rest))).
  cbn.
  pose proof (str_replace_no_occurrence "HxC" "CNode" rest Hno) as H.
  unfold str_replace in H. rewrite H. by destruct rest.
Qed.

Lemma buildCNode_Return (cls r : cref) (st st' : module_state) :
  buildCNode cls st = Return (r, st') ->
  exists c lb,
    classes st !! cls = Some c /\
    _citem2cnode st !! cls = None /\
    buildCNode_bases (_citem2cnode st) (c_bases c) [] = Return lb /\
    r = cls /\
    let nm := str_replace "HxC" "CNode" (c_name c) in
    let cn_cls := fresh (dom (classes st)) in
    st' =
      {| classes :=
           <[cn_cls := {| c_name := nm; c_bases := lb;
                          c_dict := buildCNode_methods
                            (default [] (_cnodeMethods st !! nm)) (copied_attr c) |}]>
             (classes st);
         _citem2cnode := <[cls := cn_cls]> (_citem2cnode st);
         _cnodeMethods := _cnodeMethods st;
         globals := <[nm := PClass cn_cls]> (globals st) |}.
Proof.
  unfold buildCNode. destruct (_citem2cnode st !! cls); [done|].
  destruct (classes st !! cls) as [c|]; [|done].
  destruct (buildCNode_bases _ _ _) as [lb| |] eqn:Hlb; [|done|done].
  cbn [mbind pyresult_bind]. intros [= <- <-].
  exists c, lb. repeat split; try done.
  by destruct (_cnodeMethods st !! _).
Qed.

Lemma fresh_class_unused (m : gmap cref pyclass) : m !! fresh (dom m) = None.
Proof. apply not_elem_of_dom, is_fresh. Qed.

Lemma built_class_Some (cls r : cref) (st st' : module_state) :
  buildCNode cls st = Return (r, st') ->
  exists c lb,
    classes st !! cls = Some c /\
    _citem2cnode st !! cls = None /\
    buildCNode_bases (_citem2cnode st) (c_bases c) [] = Return lb /\
    r = cls /\
    classes st' !! cls = Some c /\
    built_class cls st =
      Some {| c_name := str_replace "HxC" "CNode" (c_name c);
              c_bases := lb;
              c_dict := buildCNode_methods
                (default [] (_cnodeMethods st !! str_replace "HxC" "CNode" (c_name c)))
                (copied_attr c) |}.
Proof.
  intros Hb. unfold built_class. rewrite Hb.
  apply buildCNode_Return in Hb as (c & lb & Hc & Hkey & Hlb & -> & ->).
  exists c, lb. cbn. rewrite lookup_insert_eq. cbn. rewrite lookup_insert_eq.
  repeat split; try done.
  rewrite lookup_insert_ne; [done|]. intros Heq.
  pose proof (fresh_class_unused (classes st)) as Hf. congruence.
Qed.

(** C2, as stated, fails twice: the class generated for [HxCExprVar] has
    the attribute [lvar] registered with [addCNodeMethod], which a copy
    of [HxCExprVar.__dict__] with [__module__] and [__doc__] replaced has
    not; and in the name [HxCExprHxCLike] the second [HxC] is replaced
    too. *)
Lemma buildCNode_not_plain_copy :
  (_citem2cnode ex_state !! 23%positive = None /\
   ((fun c => (fun b => _citem2cnode ex_state !! b) <$> c_bases c)
      <$> classes ex_state !! 23%positive) = Some [Some 2%positive] /\
   (built_class 23%positive ex_state ≫= fun new => c_dict new !! "lvar")
     = Some ex_lvar /\
   (classes ex_state !! 23%positive ≫= fun c => copied_attr c !! "lvar") = None /\
   c_dict <$> built_class 23%positive ex_state
     <> copied_attr <$> classes ex_state !! 23%positive) /\
  (c_name <$> classes ex_state !! 25%positive = Some "HxCExprHxCLike" /\
   c_name <$> built_class 25%positive ex_state = Some "CNodeExprCNodeLike").
Proof.
  repeat split; try (vm_compute; reflexivity).
  intros H.
  apply (f_equal (fun o : option (gmap string pyval) => o ≫= fun d => d !! "lvar")) in H.
  vm_compute in H. discriminate H.
Qed.

(** C2, amended: for a class [cls] that is not a key of [_citem2cnode]
    and whose bases all are, with images [lb], [buildCNode(cls)] returns
    [cls] and leaves it as it was; it creates a class under a new
    identity, whose bases are [lb], whose name is [CNode<rest>] when
    [cls.__name__] is [HxC<rest>] and [rest] has no [HxC], and whose
    attributes are those of [cls.__dict__] with [__module__] and [__doc__]
    replaced and then every name registered in [_cnodeMethods] for the new
    name set to the function registered last; the class is recorded under
    [cls] in [_citem2cnode] and under its name in the globals.  When [cls]
    is a key already, or a base is not, [AssertionError] is raised. *)
Theorem buildCNode_mirrors_class (cls : cref) (st : module_state) (c : pyclass) :
  classes st !! cls = Some c ->
  (forall lb,
     _citem2cnode st !! cls = None ->
     (fun b => _citem2cnode st !! b) <$> c_bases c = Some <$> lb ->
     exists cn_cls new st',
       buildCNode cls st = Return (cls, st') /\
       classes st !! cn_cls = None /\
       classes st' = <[cn_cls := new]> (classes st) /\
       classes st' !! cls = Some c /\
       _citem2cnode st' = <[cls := cn_cls]> (_citem2cnode st) /\
       globals st' = <[c_name new := PClass cn_cls]> (globals st) /\
       _cnodeMethods st' = _cnodeMethods st /\
       c_bases new = lb /\
       (forall rest, c_name c = "HxC" +:+ rest -> occurs "HxC" rest = false ->
          c_name new = "CNode" +:+ rest) /\
       (forall na,
          c_dict new !! na =
          match last_registered (default [] (_cnodeMethods st !! c_name new)) na with
          | Some f => Some f
          | None => copied_attr c !! na
          end) /\
       (_cnodeMethods st !! c_name new = None -> c_dict new = copied_attr c)) /\
  (is_Some (_citem2cnode st !! cls) \/
   (exists b, b ∈ c_bases c /\ _citem2cnode st !! b = None) ->
   buildCNode cls st = Raise AssertionError).
Proof.
  intros Hc. split.
  - intros lb Hkey Hbases.
    pose proof (buildCNode_bases_images _ _ _ [] Hbases) as Hlb.
    assert (Hb : exists st', buildCNode cls st = Return (cls, st')).
    { unfold buildCNode. rewrite Hkey, Hc, Hlb. cbn. eauto. }
    destruct Hb as [st' Hb]. pose proof Hb as Hb'.
    apply buildCNode_Return in Hb' as (c' & lb' & Hc' & _ & Hlb' & _ & Hst).
    assert (c' = c) as -> by congruence.
    assert (lb' = lb) as -> by (rewrite Hlb in Hlb'; by injection Hlb').
    cbn zeta in Hst. subst st'.
    eexists _, _, _. split; [exact Hb|]. cbn.
    split; [apply fresh_class_unused|]. split; [reflexivity|].
    split.
    { rewrite lookup_insert_ne; [done|]. intros Heq.
      pose proof (fresh_class_unused (classes st)). congruence. }
    repeat split.
    + intros rest -> Hno. by apply str_replace_HxC_prefix.
    + intros na. apply buildCNode_methods_lookup.
    + cbn. intros H. by rewrite H.
  - intros [[cn Hkey]|(b & Hin & Hb)]; unfold buildCNode.
    + by rewrite Hkey.
    + destruct (_citem2cnode st !! cls); [done|]. rewrite Hc.
      by rewrite (buildCNode_bases_missing _ _ _ b).
Qed.

Lemma buildCNode_mirrors_class_witness :
  exists cn_cls new st',
    buildCNode 23%positive ex_state = Return (23%positive, st') /\
    classes ex_state !! cn_cls = None /\
    classes st' = <[cn_cls := new]> (classes ex_state) /\
    c_bases new = [2%positive] /\
    c_name new = "CNodeExprVar".
Proof.
  destruct (buildCNode_mirrors_class 23%positive ex_state
    (mkclass "HxCExprVar" [21%positive]
       [("index", PProperty (Some ("index", 7%positive)));
        ("TYPE_HANDLE", PStr "cot_var")]) eq_refl) as [Hok _].
  destruct (Hok [2%positive] eq_refl eq_refl)
    as (cn & new & st' & H1 & H2 & H3 & _ & _ & _ & _ & H4 & H5 & _).
  exists cn, new, st'. repeat split; try done.
  apply (H5 "ExprVar"); reflexivity.
Defined.

(** What [@addCNodeMethod(cnode_name, func_name)] does to the module: the
    pair of the selected name and the function is appended to
    [_cnodeMethods[cnode_name]], and the function is returned. *)
Lemma decorate_addCNodeMethod_Return (cnode_name : string)
    (func_name : option string) (func v : pyval) (st st' : module_state) :
  decorate_addCNodeMethod cnode_name func_name func st = Return (v, st') ->
  exists na,
    select_name func_name func = Return na /\ v = func /\
    _cnodeMethods st' !! cnode_name =
      Some (default [] (_cnodeMethods st !! cnode_name) ++ [(na, func)]) /\
    last_registered (default [] (_cnodeMethods st' !! cnode_name)) na = Some func /\
    classes st' = classes st /\ _citem2cnode st' = _citem2cnode st /\
    globals st' = globals st.
Proof.
  unfold decorate_addCNodeMethod, _internal_addcnodemeth, addCNodeMethod.
  destruct (select_name func_name func) as [na| |]; [|done|done].
  cbn [mbind pyresult_bind]. intros H. exists na.
  assert (Hlast : forall l : list (string * pyval),
            last_registered (l ++ [(na, func)]) na = Some func).
  { induction l as [|[n g] l IH]; simpl; [by rewrite decide_True|by rewrite IH]. }
  destruct (_cnodeMethods st !! cnode_name) as [l|] eqn:Hl.
  - rewrite Hl in H. injection H as <- <-. cbn.
    rewrite lookup_insert_eq. cbn. by rewrite Hlast.
  - cbn in H. rewrite lookup_insert_eq in H. injection H as <- <-. cbn.
    rewrite lookup_insert_eq. cbn. by rewrite decide_True.
Qed.

(** C10, as stated, fails: after [lvar] is registered a second time for
    [CNodeExprVar], the pair registered first is not the attribute of the
    generated class. *)
Lemma first_registration_not_installed :
  decorate_addCNodeMethod "CNodeExprVar" None ex_lvar2 ex_state
    = Return (ex_lvar2, ex_state_twice) /\
  (_cnodeMethods ex_state_twice !! "CNodeExprVar" ≫= fun l => l !! 0%nat)
    = Some ("lvar", ex_lvar) /\
  c_name <$> built_class 23%positive ex_state_twice = Some "CNodeExprVar" /\
  (built_class 23%positive ex_state_twice ≫= fun new => c_dict new !! "lvar")
    = Some ex_lvar2 /\
  ex_lvar2 <> ex_lvar.
Proof. repeat split; try (vm_compute; reflexivity). discriminate. Qed.

(** C10, amended: in the class [buildCNode] generates, every name
    registered with [addCNodeMethod] for the name of that class is an
    attribute, and its value is the function registered last under that
    name (so a pair no later pair replaces is installed, and the function
    of the latest decorator is); it overrides the attribute of the same
    name copied from [cls.__dict__], and the other names keep the copied
    attribute. *)
Theorem buildCNode_installs_methods (cls r : cref) (st st' : module_state) :
  buildCNode cls st = Return (r, st') ->
  exists c new,
    classes st !! cls = Some c /\
    built_class cls st = Some new /\
    forall l, _cnodeMethods st !! c_name new = Some l ->
      (forall na f, last_registered l na = Some f -> c_dict new !! na = Some f) /\
      (forall i na f,
         l !! i = Some (na, f) ->
         (forall j g, (i < j)%nat -> l !! j <> Some (na, g)) ->
         c_dict new !! na = Some f) /\
      (forall na, last_registered l na = None ->
         c_dict new !! na = copied_attr c !! na) /\
      (forall st0 func_name func v,
         decorate_addCNodeMethod (c_name new) func_name func st0 = Return (v, st) ->
         exists na, select_name func_name func = Return na /\
                    c_dict new !! na = Some func).
Proof.
  intros Hb. apply built_class_Some in Hb as (c & lb & Hc & _ & _ & _ & _ & Hnew).
  eexists c, _. split; [done|]. split; [exact Hnew|].
  cbn. intros l Hl. rewrite Hl. cbn.
  assert (Hlast : forall na f, last_registered l na = Some f ->
            buildCNode_methods l (copied_attr c) !! na = Some f).
  { intros na f Hf. by rewrite buildCNode_methods_lookup, Hf. }
  repeat split.
  - exact Hlast.
  - intros i na f Hi Hafter. apply Hlast. by eapply last_registered_last.
  - intros na Hna. by rewrite buildCNode_methods_lookup, Hna.
  - intros st0 func_name func v Hdec.
    apply decorate_addCNodeMethod_Return in Hdec as (na & Hna & _ & _ & Hreg & _).
    exists na. split; [done|]. apply Hlast. by rewrite Hl in Hreg.
Qed.

Lemma buildCNode_installs_methods_witness :
  exists new,
    built_class 23%positive ex_state = Some new /\
    c_dict new !! "lvar" = Some ex_lvar /\
    c_dict new !! "lvar_name" = Some ex_lvar_name.
Proof.
  assert (Hb : buildCNode 23%positive ex_state = Return (23%positive, ex_built))
    by (vm_compute; reflexivity).
  destruct (buildCNode_installs_methods 23%positive 23%positive ex_state
              ex_built Hb) as (c & new & _ & Hnew & Hl).
  assert (Hn : c_name new = "CNodeExprVar").
  { vm_compute in Hnew. injection Hnew as <-. reflexivity. }
  rewrite Hn in Hl.
  destruct (Hl [("lvar", ex_lvar); ("lvar_name", ex_lvar_name)] eq_refl)
    as (Hlast & _).
  exists new. split; [done|]. split; apply Hlast; reflexivity.
Defined.

(** ** The sample hierarchy *)

Example GetCNode_finds_var :
  GetCNode ex_classes 1%positive ex_is_handling_type (fun _ _ => 0%nat)
    (Citem 65 0x401010 []) ex_func None
  = Return (mkCNode 5%positive (Citem 65 0x401010 []) ex_func None).
Proof. vm_compute. reflexivity. Qed.

Example GetCNode_unknown_type :
  GetCNode ex_classes 1%positive ex_is_handling_type (fun _ _ => 1%nat)
    (Citem 71 0x401010 []) ex_func None
  = Raise ValueError.
Proof. vm_compute. reflexivity. Qed.

Example ignore_cast_two_casts :
  ignore_cast ex_classes 1%positive ex_is_handling_type (fun _ _ => 0%nat)
    ex_is_cast (mkCNode 4%positive ex_cast_item ex_func None)
  = Return
      (mkCNode 5%positive (Citem 65 0x401010 []) ex_func
         (Some (mkCNode 4%positive (Citem 48 0x401010 [Citem 65 0x401010 []])
                  ex_func
                  (Some (mkCNode 4%positive ex_cast_item ex_func None))))).
Proof. vm_compute. reflexivity. Qed.

Example get_cnode_filter_casts :
  get_cnode_filter ex_classes 1%positive ex_is_handling_type (fun _ _ => 0%nat)
    (mkCNode 4%positive ex_cast_item ex_func None)
    (fun cn => negb (ex_is_cast (n_class cn)))
  = Return
      [mkCNode 5%positive (Citem 65 0x401010 []) ex_func
         (Some (mkCNode 4%positive (Citem 48 0x401010 [Citem 65 0x401010 []])
                  ex_func
                  (Some (mkCNode 4%positive ex_cast_item ex_func None))))].
Proof. vm_compute. reflexivity. Qed.

(** * Further properties *)

(** ** Addresses and child nodes *)

Section ClosestEaMore.

Variable BADADDR : Z.

(** X1: [closest_ea] never returns [BADADDR] and never raises; an address
    it returns is the address of the node or of one of its ancestors. *)
Theorem closest_ea_never_BADADDR (self : CNode) :
  closest_ea BADADDR self <> Return (Some BADADDR) /\
  ~ raises (closest_ea BADADDR self) /\
  forall a, closest_ea BADADDR self = Return (Some a) ->
    a <> BADADDR /\ exists m, m ∈ parent_chain self /\ node_ea m = a.
Proof.
  rewrite closest_ea_chain. split; [|split].
  - intros [= H]. by apply first_address_not_bad in H.
  - by intros [e He].
  - intros a [= H]. split; [by apply first_address_not_bad in H|].
    unfold first_address in H.
    apply head_Some_elem_of, list_elem_of_filter in H as [_ H].
    apply list_elem_of_fmap in H as (m & -> & Hm). eauto.
Qed.

(** X2: a node with an address is its own closest address; a node
    without one has the closest address of its parent, and [None] when it
    is a root. *)
Theorem closest_ea_defers_to_parent (cl : cref) (c : citem_t) (f : HxCFunc)
    (p : option CNode) :
  closest_ea BADADDR (mkCNode cl c f p) =
  if ea c =? BADADDR then
    match p with
    | Some q => closest_ea BADADDR q
    | None => Return None
    end
  else Return (Some (ea c)).
Proof.
  rewrite closest_ea_chain. cbn [parent_chain _parent].
  rewrite first_address_cons. unfold node_ea at 1 2. cbn [_citem].
  destruct (ea c =? BADADDR); [|done].
  destruct p as [q|]; [by rewrite closest_ea_chain|done].
Qed.

End ClosestEaMore.

Section GetCNodeMore.

Variable classes : gmap cref pyclass.
Variable CNode_cls : cref.
Variable is_handling_type : cref -> Z -> bool.
Variable pop_choice : gset cref -> gset cref -> nat.

Notation subclass := (subclass_of classes CNode_cls).
Notation GetCNode' := (GetCNode classes CNode_cls is_handling_type pop_choice).
Notation _createChild' := (_createChild classes CNode_cls is_handling_type pop_choice).

(** X3: [GetCNode] always ends; the only exception it raises is
    [ValueError], and only when no class below [CNode] handles the type;
    a node it returns carries the item, the function and the parent of
    the call. *)
Theorem GetCNode_raises_only_ValueError (citem : citem_t) (hxcfunc : HxCFunc)
    (parent : option CNode) :
  GetCNode' citem hxcfunc parent <> OutOfFuel /\
  (forall e, GetCNode' citem hxcfunc parent = Raise e ->
     e = ValueError /\
     forall cl, subclass cl -> is_handling_type cl (op citem) = false) /\
  (forall n, GetCNode' citem hxcfunc parent = Return n ->
     subclass (n_class n) /\ is_handling_type (n_class n) (op citem) = true /\
     _citem n = citem /\ _hxcfunc n = hxcfunc /\ _parent n = parent).
Proof.
  destruct (GetCNode_post_holds classes CNode_cls is_handling_type pop_choice
              citem hxcfunc parent) as [[Hr Hnone]|(cl & Hsub & Hh & Hr)];
    rewrite Hr; (split; [done|]); split.
  - by intros e [= <-].
  - by intros n.
  - by intros e.
  - intros n [= <-]. done.
Qed.

(** X4: when exactly one class below [CNode] handles the type of the
    item, [GetCNode] returns an object of that class whichever elements
    [todo.pop()] returns. *)
Theorem GetCNode_unique_handler (cl : cref) (citem : citem_t)
    (hxcfunc : HxCFunc) (parent : option CNode) :
  subclass cl ->
  is_handling_type cl (op citem) = true ->
  (forall cl', subclass cl' -> is_handling_type cl' (op citem) = true -> cl' = cl) ->
  GetCNode' citem hxcfunc parent = Return (CNode___init__ cl citem hxcfunc parent).
Proof.
  intros Hsub Hh Huniq.
  destruct (GetCNode_post_holds classes CNode_cls is_handling_type pop_choice
              citem hxcfunc parent) as [[_ Hnone]|(cl' & Hsub' & Hh' & ->)].
  - apply Hnone in Hsub. congruence.
  - by rewrite (Huniq cl' Hsub' Hh').
Qed.

(** X5: the node [_createChild] makes has the creating node as parent,
    its function, the item given, and a class below [CNode] that handles
    the type; the only exception for an item is [ValueError]; for [None]
    it is [AttributeError]. *)
Theorem _createChild_links_child (self : CNode) (citem : citem_t) :
  match _createChild' self (Some citem) with
  | Return n =>
      (forall __str__, parent __str__ n = Return self) /\
      has_parent n = true /\
      cfunc n = cfunc self /\ _citem n = citem /\
      parent_chain n = n :: parent_chain self /\
      subclass (n_class n) /\ is_handling_type (n_class n) (op citem) = true
  | Raise e =>
      e = ValueError /\
      forall cl, subclass cl -> is_handling_type cl (op citem) = false
  | OutOfFuel => False
  end /\
  _createChild' self None = Raise AttributeError.
Proof.
  split; [|done]. unfold _createChild.
  destruct (GetCNode_post_holds classes CNode_cls is_handling_type pop_choice
              citem (_hxcfunc self) (Some self))
    as [[Hr Hnone]|(cl & Hsub & Hh & Hr)]; rewrite Hr; done.
Qed.

(** X6: a child made by [_createChild] on an item without address has
    the closest address of the node that made it. *)
Theorem _createChild_closest_ea (BADADDR : Z) (self n : CNode) (citem : citem_t) :
  _createChild' self (Some citem) = Return n ->
  closest_ea BADADDR n =
  if ea citem =? BADADDR then closest_ea BADADDR self else Return (Some (ea citem)).
Proof.
  unfold _createChild. intros Hn. apply GetCNode_Return in Hn as [-> _].
  unfold CNode___init__. rewrite !closest_ea_chain.
  cbn [parent_chain _parent]. rewrite first_address_cons.
  unfold node_ea at 1 2. cbn [_citem]. by destruct (ea citem =? BADADDR).
Qed.

End GetCNodeMore.

Lemma GetCNode_unique_handler_witness :
  GetCNode ex_classes 1%positive ex_is_handling_type (fun _ _ => 1%nat)
    (Citem 65 0x401010 []) ex_func None
  = Return (mkCNode 5%positive (Citem 65 0x401010 []) ex_func None).
Proof.
  apply (GetCNode_unique_handler ex_classes 1%positive ex_is_handling_type
           (fun _ _ => 1%nat) 5%positive (Citem 65 0x401010 []) ex_func None).
  - apply subclass_below with 2%positive; [apply subclass_direct|];
      apply (bool_decide_unpack _); vm_compute; exact I.
  - reflexivity.
  - intros cl' _ H. unfold ex_is_handling_type in H. simpl in H.
    repeat (destruct cl' as [cl'|cl'|]; try discriminate H); reflexivity.
Defined.

Lemma _createChild_closest_ea_witness :
  closest_ea ex_BADADDR
    (mkCNode 5%positive (Citem 65 ex_BADADDR []) ex_func (Some ex_expr))
  = Return (Some 0x401010).
Proof.
  apply (_createChild_closest_ea ex_classes 1%positive ex_is_handling_type
           (fun _ _ => 0%nat) ex_BADADDR ex_expr _ (Citem 65 ex_BADADDR [])).
  vm_compute. reflexivity.
Defined.

(** ** Leftmost nodes of an expression *)

Section LeftNodeProps.

Variable ops : CNode -> pyresult (list CNode).
Variable isinstance : CNode -> cref -> bool.
Variable CNodeExprFinal_cls : cref.

Notation not_final := (fun n => negb (isinstance n CNodeExprFinal_cls)).
Notation matching li :=
  (fun n => isinstance_any isinstance n li && negb (isinstance n CNodeExprFinal_cls)).
Notation final_loop := (find_final_left_node_while ops isinstance CNodeExprFinal_cls).
Notation match_loop := (find_left_node_notmatching_while ops isinstance CNodeExprFinal_cls).
Notation path := (left_path ops).

Lemma ops_0_Found (obj r : CNode) (k : CNode -> left_outcome) :
  ops_0 ops obj k = Found r <->
  exists o l, ops obj = Return (o :: l) /\ k o = Found r.
Proof.
  unfold ops_0. destruct (ops obj) as [[|o l]| |]; simpl; split;
    try done; try (by intros (? & ? & ? & ?)).
  - eauto.
  - by intros (o' & l' & [= <- <-] & H).
Qed.

Lemma final_loop_Found (fuel : nat) (obj r : CNode) :
  final_loop fuel obj = Found r <->
  exists k, (k < fuel)%nat /\ path not_final k obj r /\
            isinstance r CNodeExprFinal_cls = true.
Proof.
  split.
  - revert obj. induction fuel as [|fuel IH]; intros obj; [done|]. simpl.
    destruct (isinstance obj CNodeExprFinal_cls) eqn:Hf; simpl.
    + intros [= <-]. exists 0%nat. repeat split; [lia|constructor|done].
    + destruct (ops obj) as [l| |] eqn:Hops; [|done|done].
      case_decide; [done|]. intros Hl. apply ops_0_Found in Hl as (o & l' & Ho & Hl).
      apply IH in Hl as (k & Hk & Hp & Hr). exists (S k).
      repeat split; [lia| |done]. econstructor; [by rewrite Hf|exact Ho|done].
  - intros (k & Hk & Hp & Hr). revert fuel Hk.
    induction Hp as [n|k n o l m Hgo Hops Hp IH]; intros fuel Hk;
      (destruct fuel as [|fuel]; [lia|]); simpl.
    + by rewrite Hr.
    + rewrite Hgo, Hops. simpl. apply ops_0_Found. exists o, l.
      split; [done|]. apply IH; [done|lia].
Qed.

Lemma match_loop_Found (fuel : nat) (li : list cref) (obj r : CNode) :
  match_loop fuel li obj = Found r <->
  exists k, (k < fuel)%nat /\ path (matching li) k obj r /\
            matching li r = false.
Proof.
  split.
  - revert obj. induction fuel as [|fuel IH]; intros obj; [done|]. simpl.
    destruct (matching li obj) eqn:Hm.
    + intros Hl. apply ops_0_Found in Hl as (o & l' & Ho & Hl).
      apply IH in Hl as (k & Hk & Hp & Hr). exists (S k).
      repeat split; [lia| |done]. econstructor; [exact Hm|exact Ho|done].
    + intros [= <-]. exists 0%nat. repeat split; [lia|constructor|done].
  - intros (k & Hk & Hp & Hr). revert fuel Hk.
    induction Hp as [n|k n o l m Hgo Hops Hp IH]; intros fuel Hk;
      (destruct fuel as [|fuel]; [lia|]); simpl.
    + by rewrite Hr.
    + rewrite Hgo. apply ops_0_Found. exists o, l.
      split; [done|]. apply IH; [done|lia].
Qed.

Lemma left_path_ext (go_on go_on' : CNode -> bool) (k : nat) (n m : CNode) :
  (forall n, go_on n = go_on' n) -> path go_on k n m -> path go_on' k n m.
Proof.
  intros Hext. induction 1; econstructor; eauto.
Qed.

(** X7: [find_final_left_node] returns [r] exactly when [r] is a final
    expression reached from the node by going to the first element of
    [ops] through expressions that are not final, in fewer steps than
    the fuel; a final expression is returned as it is. *)
Theorem find_final_left_node_leftmost (fuel : nat) (self r : CNode) :
  (find_final_left_node ops isinstance CNodeExprFinal_cls fuel self = Found r <->
   exists k, (k < fuel)%nat /\ path not_final k self r /\
             isinstance r CNodeExprFinal_cls = true) /\
  (isinstance self CNodeExprFinal_cls = true ->
   find_final_left_node ops isinstance CNodeExprFinal_cls (S fuel) self = Found self).
Proof.
  split; [apply final_loop_Found|].
  intros Hf. unfold find_final_left_node. simpl. by rewrite Hf.
Qed.

(** X8: [find_final_left_node] raises its [Exception] exactly when the
    leftmost path ends in an expression that is not final and has no
    [ops]; it never raises the [IndexError] of [ops[0]]. *)
Theorem find_final_left_node_no_child (fuel : nat) (self : CNode) :
  (find_final_left_node ops isinstance CNodeExprFinal_cls fuel self
     = RaisedException <->
   exists k m, (k < fuel)%nat /\ path not_final k self m /\
               isinstance m CNodeExprFinal_cls = false /\ ops m = Return []) /\
  find_final_left_node ops isinstance CNodeExprFinal_cls fuel self
    <> RaisedIndexError.
Proof.
  unfold find_final_left_node. split; [split|].
  - revert self. induction fuel as [|fuel IH]; intros obj; [done|]. simpl.
    destruct (isinstance obj CNodeExprFinal_cls) eqn:Hf; simpl; [done|].
    destruct (ops obj) as [l| |] eqn:Hops; [|done|done].
    case_decide as Hl.
    + intros _. exists 0%nat, obj. destruct l; [|done].
      split; [lia|]. split; [apply left_path_here|done].
    + unfold ops_0. rewrite Hops. destruct l as [|o l]; [done|]. simpl.
      intros H. apply IH in H as (k & m & Hk & Hp & Hm & Hops').
      exists (S k), m. split; [lia|]. split; [|done].
      econstructor; [by rewrite Hf|exact Hops|done].
  - intros (k & m & Hk & Hp & Hm & Hops). revert fuel Hk.
    induction Hp as [n|k n o l m Hgo Hops' Hp IH]; intros fuel Hk;
      (destruct fuel as [|fuel]; [lia|]); simpl.
    + by rewrite Hm, Hops.
    + rewrite Hgo, Hops'. simpl. unfold ops_0. rewrite Hops'. simpl.
      apply IH; [done|done|lia].
  - revert self. induction fuel as [|fuel IH]; intros obj; [done|]. simpl.
    destruct (isinstance obj CNodeExprFinal_cls) eqn:Hf; simpl; [done|].
    destruct (ops obj) as [l| |] eqn:Hops; [|done|done].
    case_decide as Hl; [done|].
    unfold ops_0. rewrite Hops. destruct l as [|o l]; [done|]. simpl. apply IH.
Qed.

(** X9: [find_left_node_notmatching] returns [r] exactly when [r] is
    reached by going to the first element of [ops] through nodes that
    match a class of [li] and are not final, and [r] itself matches no
    class of [li] or is final; with an empty [li], or on a node that does
    not match, it returns the node itself. *)
Theorem find_left_node_notmatching_leftmost (fuel : nat) (self r : CNode)
    (li : list cref) :
  (find_left_node_notmatching ops isinstance CNodeExprFinal_cls fuel self li
     = Found r <->
   exists k, (k < fuel)%nat /\ path (matching li) k self r /\
     (isinstance_any isinstance r li = false \/
      isinstance r CNodeExprFinal_cls = true)) /\
  find_left_node_notmatching ops isinstance CNodeExprFinal_cls (S fuel) self []
    = Found self /\
  (isinstance_any isinstance self li = false ->
   find_left_node_notmatching ops isinstance CNodeExprFinal_cls (S fuel) self li
     = Found self).
Proof.
  unfold find_left_node_notmatching. split; [|split].
  - rewrite match_loop_Found. split; intros (k & Hk & Hp & Hr); exists k;
      (repeat split; [done|done|]).
    + apply andb_false_iff in Hr as [Hr|Hr]; [by left|right].
      by apply negb_false_iff in Hr.
    + apply andb_false_iff. destruct Hr as [Hr|Hr]; [by left|right].
      by rewrite Hr.
  - done.
  - intros Hno. simpl. by rewrite Hno.
Qed.

(** X10: when every node matches a class of [li], the two searches
    return the same nodes: [find_left_node_notmatching] then goes down
    to the leftmost final expression. *)
Theorem find_left_node_notmatching_all (fuel : nat) (self r : CNode)
    (li : list cref) :
  (forall n, isinstance_any isinstance n li = true) ->
  find_left_node_notmatching ops isinstance CNodeExprFinal_cls fuel self li
    = Found r <->
  find_final_left_node ops isinstance CNodeExprFinal_cls fuel self = Found r.
Proof.
  intros Hall. unfold find_left_node_notmatching, find_final_left_node.
  rewrite match_loop_Found, final_loop_Found.
  assert (Hext : forall n, matching li n = not_final n)
    by (intros n; by rewrite Hall).
  split; intros (k & Hk & Hp & Hr); exists k; (repeat split; [done| |]).
  - by eapply left_path_ext.
  - rewrite Hext in Hr. by apply negb_false_iff in Hr.
  - eapply left_path_ext; [|exact Hp]. done.
  - rewrite Hext. by rewrite Hr.
Qed.

End LeftNodeProps.

Lemma find_left_node_notmatching_all_witness :
  find_left_node_notmatching ex_ops ex_isinstance 5%positive 3
    (mkCNode 4%positive ex_cast_item ex_func None) [2%positive]
    = Found ex_cast_var <->
  find_final_left_node ex_ops ex_isinstance 5%positive 3
    (mkCNode 4%positive ex_cast_item ex_func None) = Found ex_cast_var.
Proof.
  apply (find_left_node_notmatching_all ex_ops ex_isinstance 5%positive 3
           (mkCNode 4%positive ex_cast_item ex_func None) ex_cast_var
           [2%positive]).
  intros n. reflexivity.
Defined.

Example find_final_left_node_two_casts :
  find_final_left_node ex_ops ex_isinstance 5%positive 3
    (mkCNode 4%positive ex_cast_item ex_func None) = Found ex_cast_var.
Proof. vm_compute. reflexivity. Qed.

Example find_final_left_node_short_of_fuel :
  find_final_left_node ex_ops ex_isinstance 5%positive 2
    (mkCNode 4%positive ex_cast_item ex_func None) = Unfinished.
Proof. vm_compute. reflexivity. Qed.

(** ** Casts and the parent chain *)

Section IgnoreCastMore.

Variable classes : gmap cref pyclass.
Variable CNode_cls : cref.
Variable is_handling_type : cref -> Z -> bool.
Variable pop_choice : gset cref -> gset cref -> nat.
Variable is_cast : cref -> bool.

Notation ignore_cast' :=
  (ignore_cast classes CNode_cls is_handling_type pop_choice is_cast).
Notation ignore_cast_of' :=
  (ignore_cast_of classes CNode_cls is_handling_type pop_choice is_cast).
Notation cast := (fun m => is_cast_node is_cast m = true).

Lemma ignore_cast_of_chain (c : citem_t) :
  forall cl f p r,
    ignore_cast_of' cl c f p = Return r ->
    cfunc r = f /\
    exists l, parent_chain r = l ++ parent_chain (mkCNode cl c f p) /\
      match l with
      | [] => r = mkCNode cl c f p
      | _ :: l' => Forall cast (l' ++ [mkCNode cl c f p])
      end.
Proof.
  induction c as [o a ops IH] using citem_t_ind'. intros cl f p r. simpl.
  destruct (is_cast cl) eqn:Hcl.
  - destruct ops as [|cx ops]; [done|]. intros Hr.
    apply pyresult_bind_Return in Hr as (child & Hchild & Hr).
    apply GetCNode_Return in Hchild as [Hchild _].
    apply Forall_cons in IH as [IH _]. apply IH in Hr as (Hf & l & Hl & Hcasts).
    rewrite Hchild in Hf, Hl, Hcasts. cbn in Hf.
    split; [done|]. exists (l ++ [CNode___init__ (n_class child) cx f
      (Some (mkCNode cl (Citem o a (cx :: ops)) f p))]).
    split.
    + rewrite Hl. cbn [parent_chain _parent CNode___init__].
      by rewrite <- app_assoc.
    + destruct l as [|r0 l1]; simpl.
      * by repeat constructor.
      * apply Forall_app. split; [exact Hcasts|]. by repeat constructor.
  - intros [= <-]. split; [done|]. by exists [].
Qed.

(** X11: the node [ignore_cast] returns belongs to the same function and
    lies below the node: its parent chain ends with the chain of the
    node, and the nodes on the way up to the node, the node included, are
    casts, unless it is the node itself. *)
Theorem ignore_cast_below_casts (self r : CNode) :
  ignore_cast' self = Return r ->
  cfunc r = cfunc self /\
  exists l, parent_chain r = l ++ parent_chain self /\
    match l with
    | [] => r = self
    | _ :: l' => Forall cast (l' ++ [self])
    end.
Proof.
  destruct self as [cl c f p]. apply ignore_cast_of_chain.
Qed.

End IgnoreCastMore.

Lemma ignore_cast_below_casts_witness :
  cfunc ex_cast_var = ex_func /\
  exists l,
    parent_chain ex_cast_var
      = l ++ parent_chain (mkCNode 4%positive ex_cast_item ex_func None) /\
    match l with
    | [] => ex_cast_var = mkCNode 4%positive ex_cast_item ex_func None
    | _ :: l' =>
      Forall (fun m => is_cast_node ex_is_cast m = true)
        (l' ++ [mkCNode 4%positive ex_cast_item ex_func None])
    end.
Proof.
  apply (ignore_cast_below_casts ex_classes 1%positive ex_is_handling_type
           (fun _ _ => 0%nat) ex_is_cast
           (mkCNode 4%positive ex_cast_item ex_func None) ex_cast_var).
  vm_compute. reflexivity.
Defined.

(** ** Generated classes *)

Lemma elem_of_subclasses (classes : gmap cref pyclass) (c c' : cref) :
  c' ∈ __subclasses__ classes c <->
  exists cl, classes !! c' = Some cl /\ c ∈ c_bases cl.
Proof.
  unfold __subclasses__. rewrite list_elem_of_fmap. split.
  - intros ([k cl] & -> & H). apply list_elem_of_filter in H as [Hb H].
    apply elem_of_map_to_list in H. eauto.
  - intros (cl & Hcl & Hb). exists (c', cl). split; [done|].
    apply list_elem_of_filter. split; [done|]. by apply elem_of_map_to_list.
Qed.

Lemma subclasses_insert_fresh (classes : gmap cref pyclass) (k c c' : cref)
    (new : pyclass) :
  classes !! k = None ->
  c' ∈ __subclasses__ classes c -> c' ∈ __subclasses__ (<[k := new]> classes) c.
Proof.
  intros Hk. rewrite !elem_of_subclasses. intros (cl & Hcl & Hb).
  exists cl. split; [|done]. rewrite lookup_insert_ne; [done|]. congruence.
Qed.

Lemma subclass_of_insert_fresh (classes : gmap cref pyclass) (k root c : cref)
    (new : pyclass) :
  classes !! k = None ->
  subclass_of classes root c -> subclass_of (<[k := new]> classes) root c.
Proof.
  intros Hk. induction 1 as [c Hc|c c' _ IH Hc].
  - apply subclass_direct. by apply subclasses_insert_fresh.
  - eapply subclass_below; [exact IH|]. by apply subclasses_insert_fresh.
Qed.

Lemma buildCNode_bases_Return (m : gmap cref cref) (bases acc lb : list cref) :
  buildCNode_bases m bases acc = Return lb ->
  exists lb', lb = acc ++ lb' /\ (fun b => m !! b) <$> bases = Some <$> lb'.
Proof.
  revert acc lb. induction bases as [|b bases IH]; intros acc lb; simpl.
  - intros [= <-]. exists []. by rewrite app_nil_r.
  - destruct (m !! b) as [cn|] eqn:Hb; [|done].
    intros H. apply IH in H as (lb' & -> & Hlb'). exists (cn :: lb').
    rewrite <- app_assoc. split; [done|]. rewrite !fmap_cons. by f_equal.
Qed.

(** What a successful [buildCNode] leaves, with the new class named. *)
Lemma buildCNode_new_class (cls r : cref) (st st' : module_state) :
  buildCNode cls st = Return (r, st') ->
  exists c lb cn new,
    r = cls /\
    classes st !! cls = Some c /\
    _citem2cnode st !! cls = None /\
    (fun b => _citem2cnode st !! b) <$> c_bases c = Some <$> lb /\
    classes st !! cn = None /\
    c_bases new = lb /\
    classes st' = <[cn := new]> (classes st) /\
    _citem2cnode st' = <[cls := cn]> (_citem2cnode st) /\
    globals st' = <[c_name new := PClass cn]> (globals st) /\
    _cnodeMethods st' = _cnodeMethods st.
Proof.
  intros Hb. apply buildCNode_Return in Hb as (c & lb & Hc & Hkey & Hlb & -> & ->).
  apply buildCNode_bases_Return in Hlb as (lb' & -> & Hlb).
  eexists c, lb', _, _. cbn. repeat split; try done. apply fresh_class_unused.
Qed.

(** X12: [buildCNode] succeeds at most once for a class: after it
    returned, a second call on the same class raises [AssertionError]. *)
Theorem buildCNode_only_once (cls r : cref) (st st' : module_state) :
  buildCNode cls st = Return (r, st') ->
  buildCNode cls st' = Raise AssertionError.
Proof.
  intros Hb. apply buildCNode_new_class in Hb
    as (c & lb & cn & new & _ & _ & _ & _ & _ & _ & _ & Hkeys & _).
  unfold buildCNode. by rewrite Hkeys, lookup_insert_eq.
Qed.

Lemma buildCNode_only_once_witness :
  buildCNode 23%positive ex_built = Raise AssertionError.
Proof.
  apply (buildCNode_only_once 23%positive 23%positive ex_state ex_built).
  vm_compute. reflexivity.
Defined.

(** X13: the generated class is a subclass of the image of every base of
    [cls], and the classes that were subclasses of a class still are: the
    generated hierarchy mirrors the inheritance of the item classes. *)
Theorem buildCNode_mirrors_inheritance (cls r : cref) (st st' : module_state) :
  buildCNode cls st = Return (r, st') ->
  exists c cn,
    classes st !! cls = Some c /\ _citem2cnode st' !! cls = Some cn /\
    (forall b bn, b ∈ c_bases c -> _citem2cnode st !! b = Some bn ->
       cn ∈ __subclasses__ (classes st') bn) /\
    (forall root c0, c0 ∈ __subclasses__ (classes st) root ->
       c0 ∈ __subclasses__ (classes st') root) /\
    (forall root c0, c0 ∈ __subclasses__ (classes st') root ->
       c0 = cn \/ c0 ∈ __subclasses__ (classes st) root).
Proof.
  intros Hb. apply buildCNode_new_class in Hb
    as (c & lb & cn & new & _ & Hc & _ & Hlb & Hcn & Hbases & Hcl & Hkeys & _).
  exists c, cn. split; [done|]. split; [by rewrite Hkeys, lookup_insert_eq|].
  rewrite Hcl. split; [|split].
  - intros b bn Hin Hbn. apply elem_of_subclasses. exists new.
    split; [by rewrite lookup_insert_eq|]. rewrite Hbases.
    assert (Hsome : Some bn ∈ (Some <$> lb)).
    { rewrite <- Hlb, <- Hbn. apply list_elem_of_fmap. eauto. }
    apply list_elem_of_fmap in Hsome as (bn' & [= ->] & Hin'). done.
  - intros root c0. by apply subclasses_insert_fresh.
  - intros root c0. rewrite !elem_of_subclasses. intros (cl & Hcl0 & Hroot).
    destruct (decide (c0 = cn)) as [|Hne]; [by left|right].
    rewrite lookup_insert_ne in Hcl0; [eauto|done].
Qed.

Lemma buildCNode_mirrors_inheritance_witness :
  exists c cn,
    classes ex_state !! 23%positive = Some c /\
    _citem2cnode ex_built !! 23%positive = Some cn /\
    (forall b bn, b ∈ c_bases c -> _citem2cnode ex_state !! b = Some bn ->
       cn ∈ __subclasses__ (classes ex_built) bn) /\
    (forall root c0, c0 ∈ __subclasses__ (classes ex_state) root ->
       c0 ∈ __subclasses__ (classes ex_built) root) /\
    (forall root c0, c0 ∈ __subclasses__ (classes ex_built) root ->
       c0 = cn \/ c0 ∈ __subclasses__ (classes ex_state) root).
Proof.
  apply (buildCNode_mirrors_inheritance 23%positive 23%positive ex_state ex_built).
  vm_compute. reflexivity.
Defined.

Lemma buildCNode_succeeds (cls : cref) (st : module_state) (c : pyclass)
    (lb : list cref) :
  classes st !! cls = Some c ->
  _citem2cnode st !! cls = None ->
  (fun b => _citem2cnode st !! b) <$> c_bases c = Some <$> lb ->
  exists st', buildCNode cls st = Return (cls, st').
Proof.
  intros Hc Hkey Hlb. unfold buildCNode.
  rewrite Hkey, Hc, (buildCNode_bases_images _ _ lb []); [|done]. cbn. eauto.
Qed.

(** X14: a class derived from [cls] cannot be generated before [cls]
    ([AssertionError]); once [cls] is generated it can, and the class
    generated for it has the class generated for [cls] as its base. *)
Theorem buildCNode_base_first (cls cls2 r : cref) (st st1 : module_state)
    (c2 : pyclass) :
  classes st !! cls2 = Some c2 ->
  c_bases c2 = [cls] ->
  _citem2cnode st !! cls2 = None ->
  buildCNode cls st = Return (r, st1) ->
  buildCNode cls2 st = Raise AssertionError /\
  exists st2 cn cn2 new2,
    buildCNode cls2 st1 = Return (cls2, st2) /\
    _citem2cnode st2 !! cls = Some cn /\
    _citem2cnode st2 !! cls2 = Some cn2 /\
    classes st2 !! cn2 = Some new2 /\
    c_bases new2 = [cn] /\
    cn2 ∈ __subclasses__ (classes st2) cn.
Proof.
  intros Hc2 Hbases Hkey2 Hb.
  apply buildCNode_new_class in Hb
    as (c & lb & cn & new & _ & Hc & Hkey & Hlb & Hcn & _ & Hcl & Hkeys & _).
  split.
  - unfold buildCNode. rewrite Hkey2, Hc2, Hbases. simpl. by rewrite Hkey.
  - assert (cls2 <> cls) as Hne.
    { intros ->. assert (c = c2) as -> by congruence.
      rewrite Hbases in Hlb. simpl in Hlb. rewrite Hkey in Hlb.
      by destruct lb. }
    assert (cls2 <> cn) as Hne' by congruence.
    destruct (buildCNode_succeeds cls2 st1 c2 [cn]) as [st2 Hb2].
    + rewrite Hcl. by rewrite lookup_insert_ne.
    + rewrite Hkeys. by rewrite lookup_insert_ne.
    + rewrite Hbases, Hkeys. simpl. by rewrite lookup_insert_eq.
    + exists st2. pose proof Hb2 as Hb2'.
      apply buildCNode_new_class in Hb2'
        as (c2' & lb2 & cn2 & new2 & _ & Hc2' & _ & Hlb2 & _ & Hb2' & Hcl2 & Hkeys2 & _).
      assert (c2' = c2) as ->.
      { rewrite Hcl in Hc2'. rewrite lookup_insert_ne in Hc2'; congruence. }
      assert (lb2 = [cn]) as ->.
      { rewrite Hbases, Hkeys in Hlb2. simpl in Hlb2.
        rewrite lookup_insert_eq in Hlb2.
        destruct lb2 as [|x [|y lb2]]; try done. by injection Hlb2 as ->. }
      exists cn, cn2, new2. split; [done|].
      split; [rewrite Hkeys2, lookup_insert_ne, Hkeys, lookup_insert_eq; done|].
      split; [by rewrite Hkeys2, lookup_insert_eq|].
      split; [by rewrite Hcl2, lookup_insert_eq|]. split; [done|].
      apply elem_of_subclasses. exists new2.
      split; [by rewrite Hcl2, lookup_insert_eq|]. rewrite Hb2'. by left.
Qed.

Lemma buildCNode_base_first_witness :
  buildCNode 27%positive ex_state_derived = Raise AssertionError /\
  exists st2 cn cn2 new2,
    buildCNode 27%positive
      (match buildCNode 23%positive ex_state_derived with
       | Return (_, st1) => st1
       | _ => ex_state_derived
       end) = Return (27%positive, st2) /\
    _citem2cnode st2 !! 23%positive = Some cn /\
    _citem2cnode st2 !! 27%positive = Some cn2 /\
    classes st2 !! cn2 = Some new2 /\
    c_bases new2 = [cn] /\
    cn2 ∈ __subclasses__ (classes st2) cn.
Proof.
  apply (buildCNode_base_first 23%positive 27%positive 23%positive
           ex_state_derived _ (mkclass "HxCExprVarArg" [23%positive] [])).
  - reflexivity.
  - reflexivity.
  - reflexivity.
  - vm_compute. reflexivity.
Defined.

(** X15: once [buildCNode] generated a class under a class of the [CNode]
    hierarchy, [GetCNode] finds it: for an item type the generated class
    handles, [GetCNode] returns an object instead of raising [ValueError]. *)
Theorem GetCNode_after_buildCNode (cls r b bn CNode_cls : cref)
    (st st' : module_state) (c : pyclass)
    (is_handling_type : cref -> Z -> bool)
    (pop_choice : gset cref -> gset cref -> nat)
    (cn : cref) (citem : citem_t) (hxcfunc : HxCFunc) (parent : option CNode) :
  buildCNode cls st = Return (r, st') ->
  classes st !! cls = Some c ->
  b ∈ c_bases c ->
  _citem2cnode st !! b = Some bn ->
  bn = CNode_cls \/ subclass_of (classes st) CNode_cls bn ->
  _citem2cnode st' !! cls = Some cn ->
  is_handling_type cn (op citem) = true ->
  subclass_of (classes st') CNode_cls cn /\
  exists n,
    GetCNode (classes st') CNode_cls is_handling_type pop_choice
      citem hxcfunc parent = Return n /\
    is_handling_type (n_class n) (op citem) = true /\
    _parent n = parent.
Proof.
  intros Hb Hc Hin Hbn Hbelow Hcn Hh.
  apply buildCNode_new_class in Hb
    as (c' & lb & cn' & new & _ & Hc' & _ & Hlb & Hfresh & Hbases & Hcl & Hkeys & _).
  assert (c' = c) as -> by congruence.
  assert (cn' = cn) as ->.
  { rewrite Hkeys, lookup_insert_eq in Hcn. congruence. }
  assert (Hsub : cn ∈ __subclasses__ (classes st') bn).
  { apply elem_of_subclasses. exists new. rewrite Hcl, lookup_insert_eq.
    split; [done|]. rewrite Hbases.
    assert (Hsome : Some bn ∈ (Some <$> lb)).
    { rewrite <- Hlb, <- Hbn. apply list_elem_of_fmap. eauto. }
    apply list_elem_of_fmap in Hsome as (bn' & [= ->] & Hin'). done. }
  assert (Hbelow' : subclass_of (classes st') CNode_cls cn).
  { destruct Hbelow as [->|Hbelow]; [by apply subclass_direct|].
    eapply subclass_below; [|exact Hsub]. rewrite Hcl.
    by apply subclass_of_insert_fresh. }
  split; [done|].
  destruct (GetCNode_post_holds (classes st') CNode_cls is_handling_type
              pop_choice citem hxcfunc parent)
    as [[_ Hnone]|(cl & _ & Hcl' & ->)].
  - apply Hnone in Hbelow'. congruence.
  - eexists. split; [done|]. done.
Qed.

Lemma GetCNode_after_buildCNode_witness :
  subclass_of (classes ex_built) 1%positive 26%positive /\
  exists n,
    GetCNode (classes ex_built) 1%positive ex_built_handling (fun _ _ => 0%nat)
      (Citem 65 0x401010 []) ex_func None = Return n /\
    ex_built_handling (n_class n) 65 = true /\
    _parent n = None.
Proof.
  apply (GetCNode_after_buildCNode 23%positive 23%positive 21%positive
           2%positive 1%positive ex_state ex_built
           (mkclass "HxCExprVar" [21%positive]
              [("index", PProperty (Some ("index", 7%positive)));
               ("TYPE_HANDLE", PStr "cot_var")])
           ex_built_handling (fun _ _ => 0%nat) 26%positive
           (Citem 65 0x401010 []) ex_func None).
  - vm_compute. reflexivity.
  - reflexivity.
  - apply (bool_decide_unpack _). vm_compute. exact I.
  - reflexivity.
  - right. apply subclass_direct. apply (bool_decide_unpack _).
    vm_compute. exact I.
  - vm_compute. reflexivity.
  - reflexivity.
Defined.

(** X16: [buildCNode] keeps [_citem2cnode] sound: if every key is sent
    to a class object of the module and different keys to different
    classes, this still holds after the call. *)
Theorem buildCNode_keeps_citem2cnode_ok (cls r : cref) (st st' : module_state) :
  citem2cnode_ok st ->
  buildCNode cls st = Return (r, st') ->
  citem2cnode_ok st'.
Proof.
  intros [Hcls Hinj] Hb.
  apply buildCNode_new_class in Hb
    as (c & lb & cn & new & _ & _ & Hkey & _ & Hfresh & _ & Hcl & Hkeys & _).
  unfold citem2cnode_ok. rewrite Hcl, Hkeys. split.
  - apply map_Forall_insert; [done|]. split.
    + by rewrite lookup_insert_eq.
    + intros k v Hkv. apply Hcls in Hkv. apply lookup_insert_is_Some.
      destruct (decide (cn = v)); [by left|by right].
  - rewrite map_to_list_insert; [|done]. rewrite fmap_cons. simpl.
    apply NoDup_cons. split; [|done].
    intros Hin. apply list_elem_of_fmap in Hin as ([k v] & Heq & Hin).
    simpl in Heq. subst v.
    apply elem_of_map_to_list in Hin. apply Hcls in Hin. simpl in Hin.
    rewrite Hfresh in Hin. by destruct Hin.
Qed.

Lemma buildCNode_keeps_citem2cnode_ok_witness : citem2cnode_ok ex_built.
Proof.
  apply (buildCNode_keeps_citem2cnode_ok 23%positive 23%positive ex_state ex_built).
  - apply (bool_decide_unpack _). vm_compute. exact I.
  - vm_compute. reflexivity.
Defined.

(** X17: two classes generated one after the other get different
    generated classes and [_citem2cnode] keeps both; the module global of
    a generated name is the class generated last under that name, so a
    second class with the same generated name hides the first there. *)
Theorem buildCNode_twice_globals (c1 c2 r1 r2 : cref) (st st1 st2 : module_state) :
  buildCNode c1 st = Return (r1, st1) ->
  buildCNode c2 st1 = Return (r2, st2) ->
  exists cn1 cn2 new1 new2,
    c1 <> c2 /\ cn1 <> cn2 /\
    _citem2cnode st2 !! c1 = Some cn1 /\ _citem2cnode st2 !! c2 = Some cn2 /\
    classes st2 !! cn1 = Some new1 /\ classes st2 !! cn2 = Some new2 /\
    globals st2 !! c_name new2 = Some (PClass cn2) /\
    (c_name new1 <> c_name new2 ->
     globals st2 !! c_name new1 = Some (PClass cn1)).
Proof.
  intros Hb1 Hb2.
  apply buildCNode_new_class in Hb1
    as (k1 & lb1 & cn1 & new1 & _ & _ & _ & _ & Hf1 & _ & Hcl1 & Hkeys1 & Hg1 & _).
  apply buildCNode_new_class in Hb2
    as (k2 & lb2 & cn2 & new2 & _ & _ & Hkey2 & _ & Hf2 & _ & Hcl2 & Hkeys2 & Hg2 & _).
  exists cn1, cn2, new1, new2.
  assert (c1 <> c2) as Hne.
  { intros ->. by rewrite Hkeys1, lookup_insert_eq in Hkey2. }
  assert (cn1 <> cn2) as Hne'.
  { intros ->. by rewrite Hcl1, lookup_insert_eq in Hf2. }
  repeat split; try done.
  - by rewrite Hkeys2, lookup_insert_ne, Hkeys1, lookup_insert_eq.
  - by rewrite Hkeys2, lookup_insert_eq.
  - by rewrite Hcl2, lookup_insert_ne, Hcl1, lookup_insert_eq.
  - by rewrite Hcl2, lookup_insert_eq.
  - by rewrite Hg2, lookup_insert_eq.
  - intros Hnames. by rewrite Hg2, lookup_insert_ne, Hg1, lookup_insert_eq.
Qed.

Lemma buildCNode_twice_globals_witness :
  exists cn1 cn2 new1 new2,
    23%positive <> 25%positive /\ cn1 <> cn2 /\
    _citem2cnode ex_built2 !! 23%positive = Some cn1 /\
    _citem2cnode ex_built2 !! 25%positive = Some cn2 /\
    classes ex_built2 !! cn1 = Some new1 /\
    classes ex_built2 !! cn2 = Some new2 /\
    globals ex_built2 !! c_name new2 = Some (PClass cn2) /\
    (c_name new1 <> c_name new2 ->
     globals ex_built2 !! c_name new1 = Some (PClass cn1)).
Proof.
  apply (buildCNode_twice_globals 23%positive 25%positive 23%positive
           25%positive ex_state ex_built ex_built2).
  - vm_compute. reflexivity.
  - vm_compute. reflexivity.
Defined.

(** X18: a function registered with [addCNodeMethod] after the class was
    generated does not reach it: the decorator changes no class object,
    the class recorded for [cls] is the one [buildCNode] made, and
    [buildCNode] cannot be run again for [cls]. *)
Theorem addCNodeMethod_after_buildCNode (cls r : cref) (cnode_name : string)
    (func_name : option string) (func v : pyval) (st st1 st2 : module_state) :
  buildCNode cls st = Return (r, st1) ->
  decorate_addCNodeMethod cnode_name func_name func st1 = Return (v, st2) ->
  classes st2 = classes st1 /\
  (_citem2cnode st2 !! cls ≫= fun cn => classes st2 !! cn) = built_class cls st /\
  buildCNode cls st2 = Raise AssertionError.
Proof.
  intros Hb Hd.
  apply decorate_addCNodeMethod_Return in Hd
    as (na & _ & _ & _ & _ & Hcl & Hkeys & _).
  split; [done|]. rewrite Hcl, Hkeys. split.
  - unfold built_class. by rewrite Hb.
  - apply buildCNode_new_class in Hb
      as (c & lb & cn & new & _ & _ & _ & _ & _ & _ & _ & Hk & _).
    unfold buildCNode. by rewrite Hkeys, Hk, lookup_insert_eq.
Qed.

Lemma addCNodeMethod_after_buildCNode_witness :
  classes
    (match decorate_addCNodeMethod "CNodeExprVar" (Some "size")
             (PFunc "get_size" 105%positive) ex_built with
     | Return (_, st2) => st2
     | _ => ex_built
     end) = classes ex_built /\
  (built_class 23%positive ex_state ≫= fun new => c_dict new !! "size") = None.
Proof.
  destruct (addCNodeMethod_after_buildCNode 23%positive 23%positive
              "CNodeExprVar" (Some "size") (PFunc "get_size" 105%positive)
              (PFunc "get_size" 105%positive) ex_state ex_built
              (match decorate_addCNodeMethod "CNodeExprVar" (Some "size")
                       (PFunc "get_size" 105%positive) ex_built with
               | Return (_, st2) => st2
               | _ => ex_built
               end)) as (H1 & _ & _).
  - vm_compute. reflexivity.
  - vm_compute. reflexivity.
  - split; [exact H1|]. vm_compute. reflexivity.
Defined.

(** X19: registrations accumulate in order and per class name: two
    decorators for the same class name append their two pairs, in the
    order of the decorators, to what was registered; a decorator for
    another class name leaves the list of the first as it is. *)
Theorem addCNodeMethod_accumulates (cn cn' : string)
    (fn1 fn2 : option string) (f1 f2 v1 v2 : pyval)
    (st st1 st2 : module_state) :
  decorate_addCNodeMethod cn fn1 f1 st = Return (v1, st1) ->
  decorate_addCNodeMethod cn' fn2 f2 st1 = Return (v2, st2) ->
  exists na1 na2,
    select_name fn1 f1 = Return na1 /\ select_name fn2 f2 = Return na2 /\
    v1 = f1 /\ v2 = f2 /\
    let old := default [] (_cnodeMethods st !! cn) in
    if decide (cn = cn') then
      _cnodeMethods st2 !! cn = Some (old ++ [(na1, f1); (na2, f2)])
    else
      _cnodeMethods st2 !! cn = Some (old ++ [(na1, f1)]) /\
      _cnodeMethods st2 !! cn' =
        Some (default [] (_cnodeMethods st !! cn') ++ [(na2, f2)]).
Proof.
  unfold decorate_addCNodeMethod, _internal_addcnodemeth, addCNodeMethod.
  destruct (select_name fn1 f1) as [na1| |]; [|done|done].
  destruct (select_name fn2 f2) as [na2| |]; [|done|done].
  cbn [mbind pyresult_bind]. intros H1 H2. exists na1, na2.
  repeat (split; [done|]).
  assert (Hst1 : v1 = f1 /\ _cnodeMethods st1 =
            <[cn := default [] (_cnodeMethods st !! cn) ++ [(na1, f1)]]>
              (_cnodeMethods st)).
  { destruct (_cnodeMethods st !! cn) as [l|] eqn:Hl.
    - rewrite Hl in H1. by injection H1 as <- <-.
    - cbn in H1. rewrite lookup_insert_eq in H1. injection H1 as <- <-.
      cbn. by rewrite insert_insert_eq. }
  destruct Hst1 as [-> Hm1]. split; [done|].
  assert (Hst2 : v2 = f2 /\ _cnodeMethods st2 =
            <[cn' := default [] (_cnodeMethods st1 !! cn') ++ [(na2, f2)]]>
              (_cnodeMethods st1)).
  { destruct (_cnodeMethods st1 !! cn') as [l|] eqn:Hl.
    - rewrite Hl in H2. by injection H2 as <- <-.
    - cbn in H2. rewrite lookup_insert_eq in H2. injection H2 as <- <-.
      cbn. by rewrite insert_insert_eq. }
  destruct Hst2 as [-> Hm2]. split; [done|]. cbn zeta.
  rewrite Hm2, Hm1. case_decide as Hcn.
  - subst cn'. rewrite lookup_insert_eq. cbn. rewrite lookup_insert_eq.
    simpl. by rewrite <- app_assoc.
  - rewrite lookup_insert_ne; [|done]. rewrite !lookup_insert_eq.
    split; [done|]. by rewrite lookup_insert_ne.
Qed.

Lemma addCNodeMethod_accumulates_witness :
  _cnodeMethods ex_state_twice !! "CNodeExprVar"
    = Some [("lvar", ex_lvar); ("lvar_name", ex_lvar_name); ("lvar", ex_lvar2)] /\
  _cnodeMethods ex_state_twice !! "CNodeExprCast"
    = Some [("ignore_cast", ex_ignore_cast)].
Proof.
  destruct (addCNodeMethod_accumulates "CNodeExprCast" "CNodeExprVar"
              None None ex_ignore_cast ex_lvar2 ex_ignore_cast ex_lvar2
              (match decorate_addCNodeMethod "CNodeExprVar" None ex_lvar_name
                       (match decorate_addCNodeMethod "CNodeExprVar" None
                                ex_lvar ex_state0 with
                        | Return (_, s) => s
                        | _ => ex_state0
                        end) with
               | Return (_, s) => s
               | _ => ex_state0
               end)
              ex_state ex_state_twice)
    as (na1 & na2 & Hn1 & Hn2 & _ & _ & H).
  - vm_compute. reflexivity.
  - vm_compute. reflexivity.
  - injection Hn1 as <-. injection Hn2 as <-. cbn zeta in H.
    rewrite decide_False in H by discriminate. destruct H as [H1 H2].
    split; [exact H2|exact H1].
Defined.

(** ** Reading the parent *)

(** X20: reading [n.parent] returns exactly when [n] has a parent, and
    then returns that parent without building the text of [n]; without
    a parent it raises [RuntimeError] once [str(n)] has returned, and
    any other exception it raises is one [str(n)] raised. *)
Theorem parent_raises_after_str (__str__ : CNode -> pyresult string) (n : CNode) :
  ((forall p, parent __str__ n <> Return p) <-> has_parent n = false) /\
  (has_parent n = false <-> _parent n = None) /\
  (forall p, _parent n = Some p <-> parent __str__ n = Return p) /\
  (forall s, has_parent n = false -> __str__ n = Return s ->
     parent __str__ n = Raise RuntimeError) /\
  (forall e, parent __str__ n = Raise e ->
     has_parent n = false /\ (e = RuntimeError \/ __str__ n = Raise e)) /\
  (forall cl c f p,
     (forall q, parent __str__ (CNode___init__ cl c f p) <> Return q)
     <-> p = None).
Proof.
  assert (Hnone : forall cl c f q,
            parent __str__ (mkCNode cl c f None) <> Return q).
  { intros cl c f q. rewrite parent_outcome. cbn.
    by destruct (__str__ _). }
  split; [|split; [|split; [|split; [|split]]]].
  - destruct n as [cl c f [p|]]; split.
    + intros H. by specialize (H p).
    + done.
    + done.
    + intros _ q. apply Hnone.
  - by destruct n as [cl c f [p|]].
  - intros p. destruct n as [cl c f [q|]]; split.
    + by intros [= ->].
    + by intros [= ->].
    + done.
    + intros H. by apply Hnone in H.
  - intros s Hp Hs. rewrite parent_outcome.
    destruct n as [cl c f [q|]]; [done|]. cbn in *. by rewrite Hs.
  - intros e. rewrite parent_outcome.
    destruct n as [cl c f [q|]]; [done|]. cbn.
    destruct (__str__ _) as [s|e'|]; cbn; try done.
    + intros [= <-]. auto.
    + intros [= <-]. auto.
  - intros cl c f [p|]; unfold CNode___init__; split.
    + intros H. by specialize (H p).
    + done.
    + done.
    + intros _ q. apply Hnone.
Qed.
